(** * TaskForge video generator: the poll loop and the error classifier

    A shallow embedding of [src/index.tsx]: the request built by
    [generateContent], its bounded poll loop, the download of the results,
    the upload listener, and the [catch] block of [generate] that turns a
    thrown value into a user-facing message.

    Strings are Rocq strings, one character per code unit, over the code
    units 0 to 255 (the patterns and messages of the program are all
    ASCII).  The browser, the SDK and the
    host are an environment record [Env]; the page is a record [World] that
    the program threads through its calls. *)

From Stdlib Require Import String Ascii List Bool ZArith Lia PeanoNat.
Import ListNotations.
Local Open Scope string_scope.

(** ** Strings, as the program uses them *)

Module Str.

(** [c.toLowerCase()] on one code unit: the capitals [A]-[Z] (65-90) and
    the Latin-1 capitals from A-grave to Thorn (192-222, the multiplication
    sign 215 apart) are shifted by 32 to their small letters; every other
    code unit up to 255 is its own lower case. *)
Definition lowerChar (c : ascii) : ascii :=
  let n := nat_of_ascii c in
  if ((65 <=? n)%nat && (n <=? 90)%nat) ||
     ((192 <=? n)%nat && (n <=? 222)%nat && negb (n =? 215)%nat)
  then ascii_of_nat (n + 32) else c.

(** [s.toLowerCase()]. *)
Fixpoint toLowerCase (s : string) : string :=
  match s with
  | EmptyString => EmptyString
  | String c s' => String (lowerChar c) (toLowerCase s')
  end.

(** [s.startsWith(pat)]. *)
Fixpoint startsWith (s pat : string) : bool :=
  match pat, s with
  | EmptyString, _ => true
  | String _ _, EmptyString => false
  | String p pat', String c s' => Ascii.eqb p c && startsWith s' pat'
  end.

(** [s.includes(pat)]: [pat] occurs in [s] at some position. *)
Fixpoint includes (s pat : string) : bool :=
  startsWith s pat ||
  match s with
  | EmptyString => false
  | String _ s' => includes s' pat
  end.

(** White space removed by [trim] and skipped by [parseInt], among the code
    units up to 255: tab, LF, VT, FF, CR (9-13), space (32) and the
    no-break space (160). *)
Definition isSpace (c : ascii) : bool :=
  let n := nat_of_ascii c in
  ((9 <=? n)%nat && (n <=? 13)%nat) || (n =? 32)%nat || (n =? 160)%nat.

Fixpoint trimStart (s : string) : string :=
  match s with
  | String c s' => if isSpace c then trimStart s' else s
  | EmptyString => EmptyString
  end.

(** The end of a string is trimmed from the right: a character is dropped
    when it is white space and everything after it was dropped. *)
Fixpoint trimEnd (s : string) : string :=
  match s with
  | EmptyString => EmptyString
  | String c s' =>
      match trimEnd s' with
      | EmptyString => if isSpace c then EmptyString else String c EmptyString
      | t => String c t
      end
  end.

(** [s.trim()]. *)
Definition trim (s : string) : string := trimEnd (trimStart s).

(** [s.split(sep)] for a one-character separator: the pieces between the
    separators, in order; a string without separator is its own only piece. *)
Fixpoint split (sep : ascii) (s : string) : list string :=
  match s with
  | EmptyString => [EmptyString]
  | String c s' =>
      if Ascii.eqb c sep then EmptyString :: split sep s'
      else match split sep s' with
           | [] => [String c EmptyString]
           | piece :: pieces => String c piece :: pieces
           end
  end.

(** No occurrence of the character [c] in [s]. *)
Fixpoint lacks (c : ascii) (s : string) : bool :=
  match s with
  | EmptyString => true
  | String d s' => negb (Ascii.eqb d c) && lacks c s'
  end.

Definition isDigit (c : ascii) : bool :=
  let n := nat_of_ascii c in (48 <=? n)%nat && (n <=? 57)%nat.

(** The decimal digits at the head of [s], folded into [acc]; [None] when
    [s] does not start with a digit and no digit was read before. *)
Fixpoint digits (seen : bool) (acc : Z) (s : string) : option Z :=
  match s with
  | String c s' =>
      if isDigit c
      then digits true (10 * acc + Z.of_nat (nat_of_ascii c - 48)) s'
      else if seen then Some acc else None
  | EmptyString => if seen then Some acc else None
  end.

End Str.

(** ** JavaScript values that reach the program *)

(** A number as [parseInt] returns it. *)
Inductive Number : Type :=
| NaN
| Int (z : Z).

(** [parseInt(s, 10)]: leading white space is skipped, a sign is read, then
    the longest run of decimal digits; [NaN] when there is no digit. *)
Definition parseInt10 (s : string) : Number :=
  match Str.trimStart s with
  | String "-" s' =>
      match Str.digits false 0 s' with Some z => Int (- z) | None => NaN end
  | String "+" s' =>
      match Str.digits false 0 s' with Some z => Int z | None => NaN end
  | s' =>
      match Str.digits false 0 s' with Some z => Int z | None => NaN end
  end.

(** A value of a [message] property that is not a string: [undefined],
    [null], or any other value without a [toLowerCase] method (a number, a
    boolean, a plain object). *)
Inductive NonString : Type :=
| NsUndefined
| NsNull
| NsOther.

(** What a [catch] clause can receive.  [ErrorInstance] and
    [ErrorInstanceNonString] stand for the objects for which
    [e instanceof Error] holds ([Error], [TypeError], the SDK's error
    classes): the first with a string as [message], as the type of
    [Error.message] says, the second with another value there (an error
    whose [message] was reassigned, an object made from [Error.prototype]).
    The other constructors are the values for which [instanceof Error] is
    false. *)
Inductive Thrown : Type :=
| ErrorInstance (message : string)
| PlainObject (message : option string)
| StringValue (s : string)
| UndefinedValue
| NullValue
| ErrorInstanceNonString (message : NonString).

Definition instanceofError (e : Thrown) : bool :=
  match e with
  | ErrorInstance _ | ErrorInstanceNonString _ => true
  | _ => false
  end.

(** The text a thrown value carries, when it carries one: the [message]
    property of an object, or the string itself. *)
Definition rawMessage (e : Thrown) : option string :=
  match e with
  | ErrorInstance m => Some m
  | PlainObject m => m
  | StringValue s => Some s
  | UndefinedValue | NullValue | ErrorInstanceNonString _ => None
  end.

(** [new Error(msg)]. *)
Definition newError (msg : string) : Thrown := ErrorInstance msg.

(** ** Data model *)

(** [interface VideoConfig]. *)
Record VideoConfig : Type := {
  aspectRatio : string;
  durationSeconds : Number;
  resolution : string
}.

(** The [config] object of [GenerateVideosParams]. *)
Record ParamsConfig : Type := {
  pc_aspectRatio : string;
  pc_durationSeconds : Number;
  pc_resolution : string;
  numberOfVideos : Z
}.

(** The [image] object of [GenerateVideosParams]. *)
Record Image : Type := {
  imageBytes : string;
  mimeType : string
}.

(** [interface GenerateVideosParams]; [image] is the optional field. *)
Record GenerateVideosParams : Type := {
  model : string;
  gp_prompt : string;
  config : ParamsConfig;
  image : option Image
}.

(** One entry of [response.generatedVideos]: [v.video.uri]. *)
Record GeneratedVideo : Type := {
  uri : string
}.

(** [operation.response]; [generatedVideos] may be absent. *)
Record OperationResponse : Type := {
  generatedVideos : option (list GeneratedVideo)
}.

(** The operation handle of the SDK.  [done] absent reads as [false]. *)
Record Operation : Type := {
  done : bool;
  response : option OperationResponse
}.

(** A blob is known by its content. *)
Definition Blob : Type := string.

(** The result of a call into the environment: a promise that resolves, or
    one that rejects (a call that throws). *)
Inductive Outcome (A : Type) : Type :=
| Resolved (a : A)
| Rejected (e : Thrown).
Arguments Resolved {A} a.
Arguments Rejected {A} e.

(** The [Response] of [fetch]. *)
Record Response : Type := {
  ok : bool;
  statusText : string;
  blob : Outcome Blob
}.

(** [window.aistudio]: absent, present without [openSelectKey], or present
    with an [openSelectKey] whose promise resolves or rejects. *)
Inductive AIStudio : Type :=
| NoAIStudio
| AIStudioWithoutSelectKey
| AIStudioSelectKey (result : Outcome unit).

(** A file picked in the file input: its name, its declared MIME type and
    the Base64 text [FileReader] produces for its bytes. *)
Record File : Type := {
  file_name : string;
  file_type : string;
  file_base64 : string
}.

(** The environment of one run: everything the program calls and does not
    define.  [getVideosOperation k] is the answer to the [k]-th status
    request of the run (counted from 0). *)
Record Env : Type := {
  API_KEY : option string;
  generateVideos : GenerateVideosParams -> Outcome Operation;
  getVideosOperation : nat -> Outcome Operation;
  decodeURIComponent : string -> Outcome string;
  fetch : string -> Outcome Response;
  createObjectURL : Blob -> string;
  aistudio : AIStudio
}.

(** Calls into the environment, in the order they are made. *)
Inductive Event : Type :=
| EvGenerateVideos (params : GenerateVideosParams)
| EvDelay (ms : Z)
| EvGetVideosOperation (operation : Operation)
| EvFetch (url : string)
| EvOpenSelectKey.

(** What [statusEl] shows: set through [innerText] or through [innerHTML]. *)
Inductive Status : Type :=
| InnerText (s : string)
| InnerHTML (s : string).

(** The [disabled] property of the six input controls. *)
Record Controls : Type := {
  generateButton_disabled : bool;
  upload_disabled : bool;
  promptEl_disabled : bool;
  aspectRatioSelect_disabled : bool;
  durationSlider_disabled : bool;
  resolutionSelect_disabled : bool
}.

(** A line of the console: [console.log] or [console.error], with the
    thrown value it was given. *)
Inductive ConsoleLine : Type :=
| ConsoleLog (s : string)
| ConsoleError (s : string) (e : Thrown).

(** The page and the module-level variables. *)
Record World : Type := {
  statusEl : Status;
  videoContainer_display : string;
  video_src : string;
  downloadButton_href : string;
  fileNameEl_textContent : string;
  imgPreview_src : string;
  imgPreview_display : string;
  aspectRatioSelect_value : string;
  durationSlider_value : string;
  resolutionSelect_value : string;
  controls : Controls;
  base64data : string;
  prompt : string;
  polls : nat;
  trace : list Event;
  console : list ConsoleLine
}.

(** ** The monad of the program: state, exceptions, and fuel for the loop *)

Inductive Res (A : Type) : Type :=
| Ok (a : A)
| Exc (e : Thrown)
| OutOfFuel.
Arguments Ok {A} a.
Arguments Exc {A} e.
Arguments OutOfFuel {A}.

Definition M (A : Type) : Type := World -> Res A * World.

Definition ret {A} (a : A) : M A := fun w => (Ok a, w).

Definition bind {A B} (m : M A) (k : A -> M B) : M B :=
  fun w =>
    match m w with
    | (Ok a, w') => k a w'
    | (Exc e, w') => (Exc e, w')
    | (OutOfFuel, w') => (OutOfFuel, w')
    end.

(** [throw e]. *)
Definition throw {A} (e : Thrown) : M A := fun w => (Exc e, w).

(** [try { m } catch (e) { h e }]. *)
Definition tryCatch {A} (m : M A) (h : Thrown -> M A) : M A :=
  fun w =>
    match m w with
    | (Exc e, w') => h e w'
    | r => r
    end.

(** [try { m } finally { f }]: [f] runs after [m] however [m] ended; an
    exception of [f] replaces the outcome of [m]. *)
Definition tryFinally {A} (m : M A) (f : M unit) : M A :=
  fun w =>
    match m w with
    | (OutOfFuel, w') => (OutOfFuel, w')
    | (r, w') =>
        match f w' with
        | (Ok _, w'') => (r, w'')
        | (Exc e, w'') => (Exc e, w'')
        | (OutOfFuel, w'') => (OutOfFuel, w'')
        end
    end.

(** [await] of a promise of the environment. *)
Definition await {A} (o : Outcome A) : M A :=
  match o with
  | Resolved a => ret a
  | Rejected e => throw e
  end.

Definition modify (f : World -> World) : M unit := fun w => (Ok tt, f w).

Definition gets {A} (f : World -> A) : M A := fun w => (Ok (f w), w).

Declare Scope js_scope.
Delimit Scope js_scope with js.
Notation "x <- m ;; k" := (bind m (fun x => k))
  (at level 61, m at next level, right associativity) : js_scope.
Notation "m ;; k" := (bind m (fun _ => k))
  (at level 61, right associativity) : js_scope.
Local Open Scope js_scope.

(** ** Writes to the page *)

Definition set_statusEl (s : Status) (w : World) : World :=
  {| statusEl := s;
     videoContainer_display := videoContainer_display w;
     video_src := video_src w;
     downloadButton_href := downloadButton_href w;
     fileNameEl_textContent := fileNameEl_textContent w;
     imgPreview_src := imgPreview_src w;
     imgPreview_display := imgPreview_display w;
     aspectRatioSelect_value := aspectRatioSelect_value w;
     durationSlider_value := durationSlider_value w;
     resolutionSelect_value := resolutionSelect_value w;
     controls := controls w;
     base64data := base64data w;
     prompt := prompt w;
     polls := polls w;
     trace := trace w;
     console := console w |}.

Definition set_videoContainer_display (d : string) (w : World) : World :=
  {| statusEl := statusEl w;
     videoContainer_display := d;
     video_src := video_src w;
     downloadButton_href := downloadButton_href w;
     fileNameEl_textContent := fileNameEl_textContent w;
     imgPreview_src := imgPreview_src w;
     imgPreview_display := imgPreview_display w;
     aspectRatioSelect_value := aspectRatioSelect_value w;
     durationSlider_value := durationSlider_value w;
     resolutionSelect_value := resolutionSelect_value w;
     controls := controls w;
     base64data := base64data w;
     prompt := prompt w;
     polls := polls w;
     trace := trace w;
     console := console w |}.

(** [video.src = u; downloadButton.href = u]. *)
Definition set_video (u : string) (w : World) : World :=
  {| statusEl := statusEl w;
     videoContainer_display := videoContainer_display w;
     video_src := u;
     downloadButton_href := u;
     fileNameEl_textContent := fileNameEl_textContent w;
     imgPreview_src := imgPreview_src w;
     imgPreview_display := imgPreview_display w;
     aspectRatioSelect_value := aspectRatioSelect_value w;
     durationSlider_value := durationSlider_value w;
     resolutionSelect_value := resolutionSelect_value w;
     controls := controls w;
     base64data := base64data w;
     prompt := prompt w;
     polls := polls w;
     trace := trace w;
     console := console w |}.

Definition set_controls (c : Controls) (w : World) : World :=
  {| statusEl := statusEl w;
     videoContainer_display := videoContainer_display w;
     video_src := video_src w;
     downloadButton_href := downloadButton_href w;
     fileNameEl_textContent := fileNameEl_textContent w;
     imgPreview_src := imgPreview_src w;
     imgPreview_display := imgPreview_display w;
     aspectRatioSelect_value := aspectRatioSelect_value w;
     durationSlider_value := durationSlider_value w;
     resolutionSelect_value := resolutionSelect_value w;
     controls := c;
     base64data := base64data w;
     prompt := prompt w;
     polls := polls w;
     trace := trace w;
     console := console w |}.

(** The upload listener's writes: file name, [base64data], the preview's
    [src] (kept when [None]) and its [display]. *)
Definition set_upload (name data : string) (src : option string)
    (display : string) (w : World) : World :=
  {| statusEl := statusEl w;
     videoContainer_display := videoContainer_display w;
     video_src := video_src w;
     downloadButton_href := downloadButton_href w;
     fileNameEl_textContent := name;
     imgPreview_src := match src with Some s => s | None => imgPreview_src w end;
     imgPreview_display := display;
     aspectRatioSelect_value := aspectRatioSelect_value w;
     durationSlider_value := durationSlider_value w;
     resolutionSelect_value := resolutionSelect_value w;
     controls := controls w;
     base64data := data;
     prompt := prompt w;
     polls := polls w;
     trace := trace w;
     console := console w |}.

Definition set_prompt (p : string) (w : World) : World :=
  {| statusEl := statusEl w;
     videoContainer_display := videoContainer_display w;
     video_src := video_src w;
     downloadButton_href := downloadButton_href w;
     fileNameEl_textContent := fileNameEl_textContent w;
     imgPreview_src := imgPreview_src w;
     imgPreview_display := imgPreview_display w;
     aspectRatioSelect_value := aspectRatioSelect_value w;
     durationSlider_value := durationSlider_value w;
     resolutionSelect_value := resolutionSelect_value w;
     controls := controls w;
     base64data := base64data w;
     prompt := p;
     polls := polls w;
     trace := trace w;
     console := console w |}.

(** A call into the environment is appended to the trace; a status request
    also advances the count of requests. *)
Definition record_event (ev : Event) (polled : bool) (w : World) : World :=
  {| statusEl := statusEl w;
     videoContainer_display := videoContainer_display w;
     video_src := video_src w;
     downloadButton_href := downloadButton_href w;
     fileNameEl_textContent := fileNameEl_textContent w;
     imgPreview_src := imgPreview_src w;
     imgPreview_display := imgPreview_display w;
     aspectRatioSelect_value := aspectRatioSelect_value w;
     durationSlider_value := durationSlider_value w;
     resolutionSelect_value := resolutionSelect_value w;
     controls := controls w;
     base64data := base64data w;
     prompt := prompt w;
     polls := if polled then S (polls w) else polls w;
     trace := trace w ++ [ev];
     console := console w |}.

Definition record_console (l : ConsoleLine) (w : World) : World :=
  {| statusEl := statusEl w;
     videoContainer_display := videoContainer_display w;
     video_src := video_src w;
     downloadButton_href := downloadButton_href w;
     fileNameEl_textContent := fileNameEl_textContent w;
     imgPreview_src := imgPreview_src w;
     imgPreview_display := imgPreview_display w;
     aspectRatioSelect_value := aspectRatioSelect_value w;
     durationSlider_value := durationSlider_value w;
     resolutionSelect_value := resolutionSelect_value w;
     controls := controls w;
     base64data := base64data w;
     prompt := prompt w;
     polls := polls w;
     trace := trace w;
     console := console w ++ [l] |}.

(** ** The program *)

(** The double quote of the HTML attribute in [showStatusError]. *)
Definition dquote : string := String (ascii_of_nat 34) EmptyString.

(** [const maxPolls = 20]. *)
Definition maxPolls : nat := 20.

(** [let userFriendlyMessage; let shouldOpenDialog]: what the [catch] block
    of [generate] computes from the thrown value (the spec's ClassifiedError:
    user-facing message and requiresCredentialPrompt). *)
Record ClassifiedError : Type := {
  userFriendlyMessage : string;
  shouldOpenDialog : bool
}.

Module Msg.
Definition unexpected : string :=
  "An unexpected error occurred during video generation.".
Definition invalidKey : string :=
  "Your API key appears to be invalid or lacks permissions. Please verify your key and try again.".
Definition blocked : string :=
  "The video could not be generated, likely because the prompt was blocked for safety reasons. Please try a different prompt.".
Definition quota : string :=
  "You have exceeded your request limit for the API. Please wait a while and try again.".
Definition timedOut : string :=
  "Video generation timed out. Please try again, perhaps with a simpler prompt or shorter duration.".
Definition network : string :=
  "A network error occurred while downloading the video. Please check your internet connection and try again.".
Definition internal : string :=
  "The model encountered an internal error. Please try again in a few moments.".
Definition invalidArgument : string :=
  "An invalid parameter was sent to the model. Please check the video settings and try again.".
Definition fallbackPrefix : string := "An error occurred: ".

(** The messages of the errors [generateContent] raises itself. *)
Definition pollFailed : string :=
  "Failed to get video generation status. Please try again.".
Definition timeout : string :=
  "Video generation timed out. Please try again with a simpler prompt.".
Definition noVideos : string :=
  "No videos were generated. The prompt may have been blocked.".
Definition fetchFailed : string := "Failed to fetch video file: ".
End Msg.

(** The conditions of the [if]/[else if] chain, on the lower-cased message. *)
Module Rule.
Definition credential (errorMessage : string) : bool :=
  Str.includes errorMessage "api key not valid" ||
  Str.includes errorMessage "api_key_invalid" ||
  Str.includes errorMessage "permission denied" ||
  Str.includes errorMessage "requested entity was not found".
Definition blocked (errorMessage : string) : bool :=
  Str.includes errorMessage "prompt may have been blocked" ||
  Str.includes errorMessage "no videos were generated".
Definition quota (errorMessage : string) : bool :=
  Str.includes errorMessage "quota" ||
  Str.includes errorMessage "rate limit".
Definition timedOut (errorMessage : string) : bool :=
  Str.includes errorMessage "video generation timed out".
Definition network (errorMessage : string) : bool :=
  Str.includes errorMessage "failed to fetch".
Definition internal (errorMessage : string) : bool :=
  Str.includes errorMessage "internal error" ||
  Str.includes errorMessage "model error".
Definition invalidArgument (errorMessage : string) : bool :=
  Str.includes errorMessage "invalid argument".
End Rule.

(** The body of [if (e instanceof Error) { ... }], for [e.message = message]:
    the chain is read top down and the first condition that holds decides. *)
Definition classifyMessage (message : string) : ClassifiedError :=
  let errorMessage := Str.toLowerCase message in
  if Rule.credential errorMessage then
    {| userFriendlyMessage := Msg.invalidKey; shouldOpenDialog := true |}
  else if Rule.blocked errorMessage then
    {| userFriendlyMessage := Msg.blocked; shouldOpenDialog := false |}
  else if Rule.quota errorMessage then
    {| userFriendlyMessage := Msg.quota; shouldOpenDialog := false |}
  else if Rule.timedOut errorMessage then
    {| userFriendlyMessage := Msg.timedOut; shouldOpenDialog := false |}
  else if Rule.network errorMessage then
    {| userFriendlyMessage := Msg.network; shouldOpenDialog := false |}
  else if Rule.internal errorMessage then
    {| userFriendlyMessage := Msg.internal; shouldOpenDialog := false |}
  else if Rule.invalidArgument errorMessage then
    {| userFriendlyMessage := Msg.invalidArgument; shouldOpenDialog := false |}
  else
    {| userFriendlyMessage := Msg.fallbackPrefix ++ message;
       shouldOpenDialog := false |}.

(** [e.message]: the property read, a string ([inl]) or another value
    ([inr]).  It throws a [TypeError] on [undefined] and [null]; a string
    has no such property, and a plain object may lack it. *)
Definition getMessage (e : Thrown) : M (string + NonString) :=
  match e with
  | ErrorInstance m => ret (inl m)
  | ErrorInstanceNonString v => ret (inr v)
  | PlainObject (Some m) => ret (inl m)
  | PlainObject None => ret (inr NsUndefined)
  | StringValue _ => ret (inr NsUndefined)
  | UndefinedValue =>
      throw (newError "Cannot read properties of undefined (reading 'message')")
  | NullValue =>
      throw (newError "Cannot read properties of null (reading 'message')")
  end.

(** The [TypeError] of [v.toLowerCase()] for a value [v] that is not a
    string. *)
Definition toLowerCaseTypeError (v : NonString) : Thrown :=
  match v with
  | NsUndefined =>
      newError "Cannot read properties of undefined (reading 'toLowerCase')"
  | NsNull =>
      newError "Cannot read properties of null (reading 'toLowerCase')"
  | NsOther => newError "e.message.toLowerCase is not a function"
  end.

(** Lines 244-282 of [generate]: the two variables start at their defaults
    and are reassigned only under [e instanceof Error], where the message is
    read and lower-cased; [toLowerCase] of a value that is not a string
    throws, and nothing in the [catch] block catches it. *)
Definition classify (e : Thrown) : M ClassifiedError :=
  if instanceofError e then
    message <- getMessage e ;;
    match message with
    | inl m => ret (classifyMessage m)
    | inr v => throw (toLowerCaseTypeError v)
    end
  else
    ret {| userFriendlyMessage := Msg.unexpected; shouldOpenDialog := false |}.

(** Lines 78-94 of [generateContent]: the request.  [if (imageBytes)] holds
    for every string but the empty one. *)
Definition params (prompt imageBytes : string) (cfg : VideoConfig)
    : GenerateVideosParams :=
  {| model := "veo-2.0-generate-001";
     gp_prompt := prompt;
     config := {| pc_aspectRatio := aspectRatio cfg;
                  pc_durationSeconds := durationSeconds cfg;
                  pc_resolution := resolution cfg;
                  numberOfVideos := 1 |};
     image := if String.eqb imageBytes "" then None
              else Some {| imageBytes := imageBytes;
                           mimeType := "image/png" |} |}.

(** [reader.readAsDataURL(blob)]: the data URL of a file, [data:], the
    media type, [;base64,] and the Base64 text.  A file without a declared
    type is given [application/octet-stream], as browsers do. *)
Definition readAsDataURL (f : File) : string :=
  "data:" ++
  (if String.eqb (file_type f) "" then "application/octet-stream"
   else file_type f) ++
  ";base64," ++ file_base64 f.

(** [blobToBase64]: [url.split(',')[1]]. *)
Definition blobToBase64 (f : File) : string :=
  nth 1 (Str.split "," (readAsDataURL f)) "".

Definition consoleLog (s : string) : M unit :=
  modify (record_console (ConsoleLog s)).

Definition consoleError (s : string) (e : Thrown) : M unit :=
  modify (record_console (ConsoleError s e)).

Definition showStatusError (message : string) : M unit :=
  modify (set_statusEl
    (InnerHTML ("<span class=" ++ dquote ++ "text-red-400" ++ dquote ++ ">"
                ++ message ++ "</span>"))).

Definition setControlsDisabled (disabled : bool) : M unit :=
  modify (set_controls
    {| generateButton_disabled := disabled;
       upload_disabled := disabled;
       promptEl_disabled := disabled;
       aspectRatioSelect_disabled := disabled;
       durationSlider_disabled := disabled;
       resolutionSelect_disabled := disabled |}).

(** [delay(ms)]: the wait is recorded in the trace. *)
Definition delay (ms : Z) : M unit :=
  modify (record_event (EvDelay ms) false).

Section Program.

Variable env : Env.

Definition openApiKeyDialog : M unit :=
  match aistudio env with
  | AIStudioSelectKey result =>
      modify (record_event EvOpenSelectKey false) ;;
      await result
  | _ =>
      showStatusError
        "API key selection is not available. Please configure the API_KEY environment variable."
  end.

(** [ai.models.generateVideos(params)]. *)
Definition callGenerateVideos (p : GenerateVideosParams) : M Operation :=
  modify (record_event (EvGenerateVideos p) false) ;;
  await (generateVideos env p).

(** [ai.operations.getVideosOperation({ operation })]. *)
Definition callGetVideosOperation (operation : Operation) : M Operation :=
  k <- gets polls ;;
  modify (record_event (EvGetVideosOperation operation) true) ;;
  await (getVideosOperation env k).

(** [fetch(url)]. *)
Definition callFetch (url : string) : M Response :=
  modify (record_event (EvFetch url) false) ;;
  await (fetch env url).

(** Lines 102-114: [while (!operation.done && pollCount < maxPolls)].  The
    condition is tested first; [fuel] only bounds the recursion. *)
Fixpoint pollLoop (fuel : nat) (operation : Operation) (pollCount : nat)
    : M (Operation * nat) :=
  if negb (done operation) && (pollCount <? maxPolls)%nat then
    match fuel with
    | O => fun w => (OutOfFuel, w)
    | S fuel' =>
        let pollCount := S pollCount in
        consoleLog "Waiting for completion" ;;
        delay 10000 ;;
        operation <-
          tryCatch (callGetVideosOperation operation)
            (fun e =>
               consoleError "Error polling for operation status:" e ;;
               throw (newError Msg.pollFailed)) ;;
        pollLoop fuel' operation pollCount
    end
  else ret (operation, pollCount).

(** Lines 100-120: the loop from [pollCount = 0], then the time-out test. *)
Definition pollUntilDone (operation : Operation) : M Operation :=
  r <- pollLoop maxPolls operation 0 ;;
  let operation := fst r in
  if negb (done operation) then throw (newError Msg.timeout)
  else ret operation.

(** Lines 131-144: [for (const v of videos)]. *)
Fixpoint download (apiKey : string) (videos : list GeneratedVideo) : M unit :=
  match videos with
  | [] => ret tt
  | v :: videos' =>
      url <- await (decodeURIComponent env (uri v)) ;;
      res <- callFetch (url ++ "&key=" ++ apiKey) ;;
      if negb (ok res) then
        throw (newError (Msg.fetchFailed ++ statusText res))
      else
        blob <- await (blob res) ;;
        let objectURL := createObjectURL env blob in
        modify (set_video objectURL) ;;
        modify (set_videoContainer_display "block") ;;
        consoleLog "Video is ready for playback and download." ;;
        download apiKey videos'
  end.

(** [operation.response?.generatedVideos]. *)
Definition videosOf (operation : Operation) : option (list GeneratedVideo) :=
  match response operation with
  | Some r => generatedVideos r
  | None => None
  end.

Definition generateContent (prompt imageBytes apiKey : string)
    (cfg : VideoConfig) : M unit :=
  let p := params prompt imageBytes cfg in
  operation <- callGenerateVideos p ;;
  modify (set_statusEl (InnerText "Generating...")) ;;
  operation <- pollUntilDone operation ;;
  match videosOf operation with
  | None | Some [] => throw (newError Msg.noVideos)
  | Some videos =>
      modify (set_statusEl (InnerText "Downloading video...")) ;;
      download apiKey videos
  end.

(** The [catch (e)] block of [generate]. *)
Definition catchBlock (e : Thrown) : M unit :=
  consoleError "Video generation failed:" e ;;
  c <- classify e ;;
  showStatusError (userFriendlyMessage c) ;;
  if shouldOpenDialog c then openApiKeyDialog else ret tt.

(** Lines 229-291 of [generate]: the part after the API key test. *)
Definition attempt (apiKey : string) : M unit :=
  aspect <- gets aspectRatioSelect_value ;;
  duration <- gets durationSlider_value ;;
  res <- gets resolutionSelect_value ;;
  let videoConfig :=
    {| aspectRatio := aspect;
       durationSeconds := parseInt10 duration;
       resolution := res |} in
  modify (set_statusEl (InnerText "Initializing video generation...")) ;;
  modify (set_videoContainer_display "none") ;;
  setControlsDisabled true ;;
  tryFinally
    (tryCatch
       (prompt <- gets prompt ;;
        base64data <- gets base64data ;;
        generateContent prompt base64data apiKey videoConfig ;;
        modify (set_statusEl (InnerText "Video generated successfully.")))
       catchBlock)
    (setControlsDisabled false).

(** [generate]: [!apiKey] holds for an absent and for an empty key. *)
Definition generate : M unit :=
  match API_KEY env with
  | None =>
      showStatusError "API key is not configured. Please add your API key." ;;
      openApiKeyDialog
  | Some apiKey =>
      if String.eqb apiKey "" then
        showStatusError "API key is not configured. Please add your API key." ;;
        openApiKeyDialog
      else attempt apiKey
  end.

(** The click listener of the generate button. *)
Definition generateButtonClick : M unit :=
  prompt <- gets prompt ;;
  if String.eqb (Str.trim prompt) "" then
    showStatusError "Please enter a prompt to generate a video."
  else generate.

(** The [change] listener of the file input, for [files?.[0] = file]. *)
Definition uploadChange (file : option File) : M unit :=
  match file with
  | Some f =>
      let data := blobToBase64 f in
      modify (set_upload (file_name f) data
                (Some ("data:image/png;base64," ++ data)) "block")
  | None =>
      modify (set_upload "No file chosen" "" None "none")
  end.

(** The [input] listener of the prompt field, for [promptEl.value = value]. *)
Definition promptInput (value : string) : M unit :=
  modify (set_prompt value).

End Program.

(** ** Sample pages and environments, for the examples *)

Module Sample.

Definition enabled : Controls :=
  {| generateButton_disabled := false;
     upload_disabled := false;
     promptEl_disabled := false;
     aspectRatioSelect_disabled := false;
     durationSlider_disabled := false;
     resolutionSelect_disabled := false |}.

(** The page after load, with a prompt typed in. *)
Definition page : World :=
  {| statusEl := InnerText "";
     videoContainer_display := "none";
     video_src := "";
     downloadButton_href := "";
     fileNameEl_textContent := "No file chosen";
     imgPreview_src := "";
     imgPreview_display := "none";
     aspectRatioSelect_value := "16:9";
     durationSlider_value := "5";
     resolutionSelect_value := "720p";
     controls := enabled;
     base64data := "";
     prompt := "a cat surfing";
     polls := 0;
     trace := [];
     console := [] |}.

Definition cfg : VideoConfig :=
  {| aspectRatio := "16:9"; durationSeconds := Int 5; resolution := "720p" |}.

Definition pending : Operation := {| done := false; response := None |}.

Definition finished (videos : option (list GeneratedVideo)) : Operation :=
  {| done := true; response := Some {| generatedVideos := videos |} |}.

Definition clip : GeneratedVideo := {| uri := "https://host/clip.mp4?alt=media" |}.

(** An environment whose status requests are answered by [script] and
    whose downloads succeed. *)
Definition scripted (first : Operation) (script : nat -> Outcome Operation)
    (studio : AIStudio) : Env :=
  {| API_KEY := Some "KEY";
     generateVideos := fun _ => Resolved first;
     getVideosOperation := script;
     decodeURIComponent := fun s => Resolved s;
     fetch := fun _ =>
       Resolved {| ok := true; statusText := "OK"; blob := Resolved "bytes" |};
     createObjectURL := fun b => "blob:" ++ b;
     aistudio := studio |}.

(** Done at the third status request, with one video. *)
Definition doneAtThird (k : nat) : Outcome Operation :=
  if (k <? 2)%nat then Resolved pending else Resolved (finished (Some [clip])).

Definition neverDone (k : nat) : Outcome Operation := Resolved pending.

(** The second status request fails in transport. *)
Definition failsAtSecond (k : nat) : Outcome Operation :=
  if (k <? 1)%nat then Resolved pending
  else Rejected (ErrorInstance "Failed to fetch").

Definition doneEmpty (k : nat) : Outcome Operation :=
  Resolved (finished (Some [])).

(** An environment that refuses the submission for its API key. *)
Definition refused (studio : AIStudio) : Env :=
  {| API_KEY := Some "KEY";
     generateVideos := fun _ =>
       Rejected (ErrorInstance "API key not valid. Please pass a valid API key.");
     getVideosOperation := neverDone;
     decodeURIComponent := fun s => Resolved s;
     fetch := fun _ => Rejected (ErrorInstance "Failed to fetch");
     createObjectURL := fun b => "blob:" ++ b;
     aistudio := studio |}.

Definition jpeg : File :=
  {| file_name := "cat.jpg"; file_type := "image/jpeg"; file_base64 := "QUJD" |}.

Definition png : File :=
  {| file_name := "cat.png"; file_type := "image/png"; file_base64 := "QUJD" |}.

End Sample.

(** ** More sample environments *)

Module Case.

Definition first_clip : GeneratedVideo := {| uri := "https://host/one.mp4?alt=media" |}.

Definition second_clip : GeneratedVideo := {| uri := "https://host/two.mp4?alt=media" |}.

(** The body served for a URL: the URL itself, marked. *)
Definition served (url : string) : Blob := "body of " ++ url.

(** An environment that serves every asset but the one at [missing], for
    which it answers 404. *)
Definition serving (first : Operation) (script : nat -> Outcome Operation)
    (missing : string) (studio : AIStudio) : Env :=
  {| API_KEY := Some "KEY";
     generateVideos := fun _ => Resolved first;
     getVideosOperation := script;
     decodeURIComponent := fun s => Resolved s;
     fetch := fun url =>
       if String.eqb url missing
       then Resolved {| ok := false; statusText := "Not Found";
                        blob := Resolved "" |}
       else Resolved {| ok := true; statusText := "OK";
                        blob := Resolved (served url) |};
     createObjectURL := fun b => "blob:" ++ b;
     aistudio := studio |}.

(** Done at the second status request, with two videos. *)
Definition twoClips (k : nat) : Outcome Operation :=
  if (k <? 1)%nat then Resolved Sample.pending
  else Resolved (Sample.finished (Some [first_clip; second_clip])).

(** An environment without a usable API key. *)
Definition keyless (key : option string) (studio : AIStudio) : Env :=
  {| API_KEY := key;
     generateVideos := fun _ => Resolved Sample.pending;
     getVideosOperation := Sample.neverDone;
     decodeURIComponent := fun s => Resolved s;
     fetch := fun _ => Rejected (ErrorInstance "Failed to fetch");
     createObjectURL := fun b => "blob:" ++ b;
     aistudio := studio |}.

End Case.

(** ** Vocabulary of the properties *)

(** The operation the program holds after [i] status requests, when it
    started from [first], [start] requests had been made before, and the
    [k]-th request is answered by [ops k]. *)
Definition polledAt (ops : nat -> Operation) (first : Operation)
    (start i : nat) : Operation :=
  match i with
  | O => first
  | S j => ops (start + j)
  end.

(** The calls of [n] passes through the loop body: a wait of ten seconds,
    then the status request for the operation held at that time. *)
Fixpoint pollTrace (ops : nat -> Operation) (first : Operation)
    (start n : nat) : list Event :=
  match n with
  | O => []
  | S m =>
      EvDelay 10000 :: EvGetVideosOperation first ::
      pollTrace ops (ops start) (S start) m
  end.

(** The number of status requests in a trace. *)
Fixpoint countPolls (l : list Event) : nat :=
  match l with
  | [] => 0
  | EvGetVideosOperation _ :: l' => S (countPolls l')
  | _ :: l' => countPolls l'
  end.

Definition isSubmission (ev : Event) : bool :=
  match ev with
  | EvGenerateVideos _ => true
  | _ => false
  end.

(** The six controls, all with the same [disabled] value. *)
Definition allControls (disabled : bool) : Controls :=
  {| generateButton_disabled := disabled;
     upload_disabled := disabled;
     promptEl_disabled := disabled;
     aspectRatioSelect_disabled := disabled;
     durationSlider_disabled := disabled;
     resolutionSelect_disabled := disabled |}.

(** An event other than the submission of a request. *)
Definition later (ev : Event) : bool := negb (isSubmission ev).

(** None of the seven conditions of the chain holds for the message. *)
Definition matchesNoRule (message : string) : bool :=
  let errorMessage := Str.toLowerCase message in
  negb (Rule.credential errorMessage || Rule.blocked errorMessage ||
        Rule.quota errorMessage || Rule.timedOut errorMessage ||
        Rule.network errorMessage || Rule.internal errorMessage ||
        Rule.invalidArgument errorMessage).

(** The HTML [showStatusError] writes for a message. *)
Definition errorSpan (message : string) : Status :=
  InnerHTML ("<span class=" ++ dquote ++ "text-red-400" ++ dquote ++ ">"
             ++ message ++ "</span>").

(** The thrown value respects the type of [Error.message]: it is not an
    [Error] instance whose message is something else than a string. *)
Definition messageTyped (e : Thrown) : bool :=
  match e with
  | ErrorInstanceNonString _ => false
  | _ => true
  end.

(** The two variables at the end of lines 244-282, as a function of the
    thrown value (for a value that respects the type of [Error.message]). *)
Definition classified (e : Thrown) : ClassifiedError :=
  match e with
  | ErrorInstance m => classifyMessage m
  | _ => {| userFriendlyMessage := Msg.unexpected; shouldOpenDialog := false |}
  end.

(** A computation comes to an end: it returns or throws. *)
Definition finishes {A} (m : M A) : Prop :=
  forall w, fst (m w) <> OutOfFuel.

(** A computation only adds to the trace, and what it adds satisfies [ok]. *)
Definition appends {A} (ok : Event -> bool) (m : M A) : Prop :=
  forall w, exists l,
    trace (snd (m w)) = (trace w ++ l)%list /\ forallb ok l = true.

(** The page after one pass through the loop body whose status request was
    answered: the console line, the wait and the request are recorded. *)
Definition afterPoll (operation : Operation) (w : World) : World :=
  record_event (EvGetVideosOperation operation) true
    (record_event (EvDelay 10000) false
       (record_console (ConsoleLog "Waiting for completion") w)).

(** The page after [n] such passes, the [k]-th request answered by [ops k]. *)
Fixpoint afterPolls (ops : nat -> Operation) (first : Operation) (n : nat)
    (w : World) : World :=
  match n with
  | O => w
  | S m => afterPolls ops (ops (polls w)) m (afterPoll first w)
  end.

(** The page when the request [p] has been submitted and accepted. *)
Definition afterSubmit (p : GenerateVideosParams) (w : World) : World :=
  set_statusEl (InnerText "Generating...")
    (record_event (EvGenerateVideos p) false w).

(** The page when [generate] has disabled the controls and is about to
    call [generateContent] (lines 235-237). *)
Definition started (w : World) : World :=
  set_controls (allControls true)
    (set_videoContainer_display "none"
       (set_statusEl (InnerText "Initializing video generation...") w)).

(** The [videoConfig] that [generate] reads from the page (lines 229-233). *)
Definition configOf (w : World) : VideoConfig :=
  {| aspectRatio := aspectRatioSelect_value w;
     durationSeconds := parseInt10 (durationSlider_value w);
     resolution := resolutionSelect_value w |}.

(** The page when the [finally] block has run. *)
Definition settled (w : World) : World := set_controls (allControls false) w.

(** A small letter turned into its capital (the ASCII letters, 97-122, and
    the Latin-1 letters from a-grave to thorn, 224-254, the division sign
    247 apart); every other code unit is kept. *)
Definition capital (c : ascii) : ascii :=
  let n := nat_of_ascii c in
  if ((97 <=? n)%nat && (n <=? 122)%nat) ||
     ((224 <=? n)%nat && (n <=? 254)%nat && negb (n =? 247)%nat)
  then ascii_of_nat (n - 32) else c.

(** A text with all its letters written as capitals: two texts with the
    same capitals differ in the case of their letters only. *)
Fixpoint capitals (s : string) : string :=
  match s with
  | EmptyString => EmptyString
  | String c s' => String (capital c) (capitals s')
  end.


(** A trace made of passes of the loop body only: a wait of ten seconds,
    then one status request, any number of times. *)
Fixpoint pollPasses (l : list Event) : bool :=
  match l with
  | [] => true
  | EvDelay ms :: EvGetVideosOperation _ :: l' =>
      Z.eqb ms 10000 && pollPasses l'
  | _ => false
  end.

(** A fetch of some URL with [&key=] and the API key appended. *)
Definition fetchesWithKey (apiKey : string) (ev : Event) : Prop :=
  exists url, ev = EvFetch (url ++ "&key=" ++ apiKey).

(** The URL [generateContent] fetches for a video whose decoded URI is
    [url]. *)
Definition assetURL (url apiKey : string) : string :=
  url ++ "&key=" ++ apiKey.

(** [window.aistudio?.openSelectKey] is there to be called. *)
Definition hasSelectKey (a : AIStudio) : bool :=
  match a with
  | AIStudioSelectKey _ => true
  | _ => false
  end.

(** The download of the video [v] goes well: its URI decodes to [url], and
    the fetch of [url] with the key appended answers with an ok response
    whose body is [b]. *)
Definition downloads (env : Env) (apiKey : string) (v : GeneratedVideo)
    (url : string) (b : Blob) : Prop :=
  decodeURIComponent env (uri v) = Resolved url /\
  exists res,
    fetch env (assetURL url apiKey) = Resolved res /\
    ok res = true /\ blob res = Resolved b.

(** ** The monad: running a computation *)

Lemma bind_Ok {A B} (m : M A) (k : A -> M B) w a w' :
  m w = (Ok a, w') -> bind m k w = k a w'.
Proof. intros H. unfold bind. rewrite H. reflexivity. Qed.

Lemma bind_Exc {A B} (m : M A) (k : A -> M B) w e w' :
  m w = (Exc e, w') -> bind m k w = (Exc e, w').
Proof. intros H. unfold bind. rewrite H. reflexivity. Qed.

Lemma bind_modify {B} (f : World -> World) (k : unit -> M B) w :
  bind (modify f) k w = k tt (f w).
Proof. reflexivity. Qed.

Lemma bind_gets {A B} (f : World -> A) (k : A -> M B) w :
  bind (gets f) k w = k (f w) w.
Proof. reflexivity. Qed.

Lemma bind_ret {A B} (a : A) (k : A -> M B) w :
  bind (ret a) k w = k a w.
Proof. reflexivity. Qed.

Lemma bind_throw {A B} (e : Thrown) (k : A -> M B) w :
  bind (throw e) k w = (Exc e, w).
Proof. reflexivity. Qed.

Lemma bind_await {A B} (o : Outcome A) (k : A -> M B) w :
  bind (await o) k w =
  match o with
  | Resolved a => k a w
  | Rejected e => (Exc e, w)
  end.
Proof. destruct o; reflexivity. Qed.

(** ** Every computation of the program comes to an end *)

Section Finishes.

Lemma finishes_ret {A} (a : A) : finishes (ret a).
Proof. intros w; simpl; discriminate. Qed.

Lemma finishes_throw {A} (e : Thrown) : finishes (@throw A e).
Proof. intros w; simpl; discriminate. Qed.

Lemma finishes_modify (f : World -> World) : finishes (modify f).
Proof. intros w; simpl; discriminate. Qed.

Lemma finishes_gets {A} (f : World -> A) : finishes (gets f).
Proof. intros w; simpl; discriminate. Qed.

Lemma finishes_await {A} (o : Outcome A) : finishes (await o).
Proof. destruct o; intros w; simpl; discriminate. Qed.

Lemma finishes_bind {A B} (m : M A) (k : A -> M B) :
  finishes m -> (forall a, finishes (k a)) -> finishes (bind m k).
Proof.
  intros Hm Hk w. unfold bind. specialize (Hm w).
  destruct (m w) as [[a | e | ] w']; simpl in *.
  - apply Hk.
  - discriminate.
  - congruence.
Qed.

Lemma finishes_tryCatch {A} (m : M A) (h : Thrown -> M A) :
  finishes m -> (forall e, finishes (h e)) -> finishes (tryCatch m h).
Proof.
  intros Hm Hh w. unfold tryCatch. specialize (Hm w).
  destruct (m w) as [[a | e | ] w']; simpl in *.
  - discriminate.
  - apply Hh.
  - congruence.
Qed.

Lemma finishes_tryFinally {A} (m : M A) (f : M unit) :
  finishes m -> finishes f -> finishes (tryFinally m f).
Proof.
  intros Hm Hf w. unfold tryFinally. specialize (Hm w).
  destruct (m w) as [[a | e | ] w']; simpl in *; try congruence;
    specialize (Hf w'); destruct (f w') as [[[] | e' | ] w'']; simpl in *;
    congruence.
Qed.

End Finishes.

Create HintDb finishes.

(** One step of a termination proof, chosen by the shape of the
    computation; the lemmas of the program are taken from the hint base. *)
Ltac finish_step :=
  lazymatch goal with
  | |- finishes (bind _ _) => apply finishes_bind; [ | intros ? ]
  | |- finishes (tryCatch _ _) => apply finishes_tryCatch; [ | intros ? ]
  | |- finishes (tryFinally _ _) => apply finishes_tryFinally
  | |- finishes (ret _) => apply finishes_ret
  | |- finishes (throw _) => apply finishes_throw
  | |- finishes (modify _) => apply finishes_modify
  | |- finishes (gets _) => apply finishes_gets
  | |- finishes (await _) => apply finishes_await
  | |- finishes (if ?b then _ else _) => destruct b
  | |- finishes (match ?x with _ => _ end) => destruct x
  end.

Ltac finish := repeat finish_step; auto with finishes nocore.

Section ProgramFinishes.

Variable env : Env.

Lemma finishes_consoleLog s : finishes (consoleLog s).
Proof. unfold consoleLog; finish. Qed.

Lemma finishes_consoleError s e : finishes (consoleError s e).
Proof. unfold consoleError; finish. Qed.

Lemma finishes_delay ms : finishes (delay ms).
Proof. unfold delay; finish. Qed.

Lemma finishes_showStatusError msg : finishes (showStatusError msg).
Proof. unfold showStatusError; finish. Qed.

Lemma finishes_setControlsDisabled d : finishes (setControlsDisabled d).
Proof. unfold setControlsDisabled; finish. Qed.

Hint Resolve finishes_consoleLog finishes_consoleError finishes_delay
  finishes_showStatusError finishes_setControlsDisabled : finishes.

Lemma finishes_openApiKeyDialog : finishes (openApiKeyDialog env).
Proof. unfold openApiKeyDialog; finish. Qed.

Lemma finishes_getMessage e : finishes (getMessage e).
Proof. unfold getMessage; finish. Qed.

Hint Resolve finishes_openApiKeyDialog finishes_getMessage : finishes.

Lemma finishes_classify e : finishes (classify e).
Proof. unfold classify; finish. Qed.

Hint Resolve finishes_classify : finishes.

Lemma finishes_catchBlock e : finishes (catchBlock env e).
Proof. unfold catchBlock; finish. Qed.

Lemma finishes_callGenerateVideos p : finishes (callGenerateVideos env p).
Proof. unfold callGenerateVideos; finish. Qed.

Lemma finishes_callGetVideosOperation op :
  finishes (callGetVideosOperation env op).
Proof. unfold callGetVideosOperation; finish. Qed.

Lemma finishes_callFetch url : finishes (callFetch env url).
Proof. unfold callFetch; finish. Qed.

Hint Resolve finishes_catchBlock finishes_callGenerateVideos
  finishes_callGetVideosOperation finishes_callFetch : finishes.

(** The loop never runs out of fuel when the fuel covers the polls that
    are left. *)
Lemma finishes_pollLoop fuel :
  forall operation pollCount,
    maxPolls - pollCount <= fuel ->
    finishes (pollLoop env fuel operation pollCount).
Proof.
  induction fuel as [ | fuel IH]; intros operation pollCount Hfuel; simpl.
  - destruct (done operation); simpl; [ finish | ].
    destruct (Nat.ltb_spec pollCount maxPolls); [ lia | finish ].
  - destruct (negb (done operation) && (pollCount <? maxPolls)%nat) eqn:C;
      [ | finish ].
    apply andb_prop in C. destruct C as [_ C]. apply Nat.ltb_lt in C.
    finish. apply IH. lia.
Qed.

Lemma finishes_pollUntilDone operation :
  finishes (pollUntilDone env operation).
Proof.
  unfold pollUntilDone. apply finishes_bind.
  - apply finishes_pollLoop. lia.
  - intros r. finish.
Qed.

Lemma finishes_download apiKey videos : finishes (download env apiKey videos).
Proof. induction videos as [ | v videos IH]; simpl; finish. Qed.

Hint Resolve finishes_pollUntilDone finishes_download : finishes.

Lemma finishes_generateContent prompt imageBytes apiKey cfg :
  finishes (generateContent env prompt imageBytes apiKey cfg).
Proof. unfold generateContent; finish. Qed.

Hint Resolve finishes_generateContent : finishes.

Lemma finishes_attempt apiKey : finishes (attempt env apiKey).
Proof. unfold attempt; finish. Qed.

Hint Resolve finishes_attempt : finishes.

Lemma finishes_generate : finishes (generate env).
Proof. unfold generate; finish. Qed.

End ProgramFinishes.

#[export] Hint Resolve finishes_consoleLog finishes_consoleError
  finishes_delay finishes_showStatusError finishes_setControlsDisabled
  finishes_openApiKeyDialog finishes_getMessage finishes_classify
  finishes_catchBlock finishes_callGenerateVideos
  finishes_callGetVideosOperation finishes_callFetch finishes_pollUntilDone
  finishes_download finishes_generateContent finishes_attempt
  finishes_generate : finishes.

(** ** The poll loop *)

Arguments maxPolls : simpl never.

Section PollLoop.

Variable env : Env.

Lemma polledAt_shift ops first p j :
  polledAt ops (ops p) (S p) j = polledAt ops first p (S j).
Proof. destruct j; simpl; f_equal; lia. Qed.

Lemma trace_afterPoll op w :
  trace (afterPoll op w) =
  (trace w ++ [EvDelay 10000; EvGetVideosOperation op])%list.
Proof. simpl. rewrite <- app_assoc. reflexivity. Qed.

Lemma polls_afterPoll op w : polls (afterPoll op w) = S (polls w).
Proof. reflexivity. Qed.

Lemma trace_record_console l w : trace (record_console l w) = trace w.
Proof. reflexivity. Qed.

Lemma polls_record_console l w : polls (record_console l w) = polls w.
Proof. reflexivity. Qed.

Lemma trace_afterPolls ops n :
  forall first w,
    trace (afterPolls ops first n w) =
    (trace w ++ pollTrace ops first (polls w) n)%list.
Proof.
  induction n as [ | n IH]; intros first w; simpl afterPolls; simpl pollTrace.
  - now rewrite app_nil_r.
  - rewrite IH, trace_afterPoll, polls_afterPoll, <- app_assoc. reflexivity.
Qed.

Lemma polls_afterPolls ops n :
  forall first w, polls (afterPolls ops first n w) = polls w + n.
Proof.
  induction n as [ | n IH]; intros first w; simpl afterPolls.
  - lia.
  - rewrite IH, polls_afterPoll. lia.
Qed.

Lemma countPolls_pollTrace ops n :
  forall first start, countPolls (pollTrace ops first start n) = n.
Proof. induction n as [ | n IH]; intros; simpl; [ | rewrite IH ]; reflexivity. Qed.

(** The loop stops, whatever the fuel, when the operation is done or the
    count has reached [maxPolls]. *)
Lemma pollLoop_stop fuel operation pollCount w :
  done operation = true \/ maxPolls <= pollCount ->
  pollLoop env fuel operation pollCount w = (Ok (operation, pollCount), w).
Proof.
  intros H.
  assert (C : negb (done operation) && (pollCount <? maxPolls)%nat = false).
  { destruct H as [-> | H]; [ reflexivity | ].
    apply andb_false_iff. right. now apply Nat.ltb_ge. }
  destruct fuel; simpl; rewrite C; reflexivity.
Qed.

(** One pass whose status request is answered. *)
Lemma pollLoop_step fuel operation pollCount w operation' :
  done operation = false ->
  pollCount < maxPolls ->
  getVideosOperation env (polls w) = Resolved operation' ->
  pollLoop env (S fuel) operation pollCount w =
  pollLoop env fuel operation' (S pollCount) (afterPoll operation w).
Proof.
  intros Hd Hc Hr. simpl pollLoop.
  rewrite Hd. apply Nat.ltb_lt in Hc. rewrite Hc. cbn [negb andb].
  unfold consoleLog, delay. rewrite !bind_modify.
  unfold bind at 1, tryCatch, callGetVideosOperation.
  rewrite bind_gets, bind_modify. simpl polls. rewrite Hr. reflexivity.
Qed.

(** One pass whose status request fails: the loop is left at once, with
    the wrapper error in place of the failure. *)
Lemma pollLoop_step_fail fuel operation pollCount w e :
  done operation = false ->
  pollCount < maxPolls ->
  getVideosOperation env (polls w) = Rejected e ->
  pollLoop env (S fuel) operation pollCount w =
  (Exc (newError Msg.pollFailed),
   record_console (ConsoleError "Error polling for operation status:" e)
     (afterPoll operation w)).
Proof.
  intros Hd Hc Hr. simpl pollLoop.
  rewrite Hd. apply Nat.ltb_lt in Hc. rewrite Hc. cbn [negb andb].
  unfold consoleLog, delay. rewrite !bind_modify.
  unfold bind at 1, tryCatch, callGetVideosOperation.
  rewrite bind_gets, bind_modify. simpl polls. rewrite Hr. reflexivity.
Qed.

(** [n] passes whose requests are answered and leave the operation
    pending. *)
Lemma pollLoop_prefix ops n :
  forall fuel operation pollCount w,
    (forall j, j < n ->
       getVideosOperation env (polls w + j) = Resolved (ops (polls w + j))) ->
    (forall j, j < n -> done (polledAt ops operation (polls w) j) = false) ->
    pollCount + n <= maxPolls ->
    pollLoop env (n + fuel) operation pollCount w =
    pollLoop env fuel (polledAt ops operation (polls w) n) (pollCount + n)
      (afterPolls ops operation n w).
Proof.
  induction n as [ | n IH]; intros fuel operation pollCount w Hr Hd Hc.
  - simpl. now rewrite Nat.add_0_r.
  - change (S n + fuel) with (S (n + fuel)).
    rewrite (pollLoop_step _ _ _ _ (ops (polls w))).
    + rewrite IH.
      * rewrite polls_afterPoll, (polledAt_shift ops operation).
        replace (S pollCount + n) with (pollCount + S n) by lia.
        reflexivity.
      * intros j Hj. rewrite polls_afterPoll.
        replace (S (polls w) + j) with (polls w + S j) by lia.
        apply Hr. lia.
      * intros j Hj. rewrite polls_afterPoll, (polledAt_shift ops operation).
        apply Hd. lia.
      * lia.
    + apply (Hd 0). lia.
    + lia.
    + specialize (Hr 0). rewrite Nat.add_0_r in Hr. apply Hr. lia.
Qed.

End PollLoop.

(** ** Properties of the poll loop *)

(** C1.  Every status request being answered: when the operation held
    after [n <= 20] requests is the first that is done (the submitted one
    for [n = 0]), lines 100-120 end normally with that operation, after
    exactly [n] passes, each a ten-second wait followed by one request; when
    none of the operations held up to the 20th request is done, they make
    exactly 20 such passes and then throw the error whose message starts
    with 'Video generation timed out'. *)
Theorem poll_loop_outcome (env : Env) (ops : nat -> Operation)
    (first : Operation) (w : World) :
  (forall k, getVideosOperation env k = Resolved (ops k)) ->
  (forall n,
      n <= 20 ->
      done (polledAt ops first (polls w) n) = true ->
      (forall j, j < n -> done (polledAt ops first (polls w) j) = false) ->
      exists w',
        pollUntilDone env first w = (Ok (polledAt ops first (polls w) n), w') /\
        trace w' = (trace w ++ pollTrace ops first (polls w) n)%list /\
        countPolls (pollTrace ops first (polls w) n) = n /\
        polls w' = polls w + n)
  /\
  ((forall j, j <= 20 -> done (polledAt ops first (polls w) j) = false) ->
   exists w',
     pollUntilDone env first w = (Exc (newError Msg.timeout), w') /\
     Str.startsWith Msg.timeout "Video generation timed out" = true /\
     trace w' = (trace w ++ pollTrace ops first (polls w) 20)%list /\
     countPolls (pollTrace ops first (polls w) 20) = 20 /\
     polls w' = polls w + 20).
Proof.
  intros Hr. pose proof (eq_refl : maxPolls = 20) as HM. split.
  - intros n Hn Hdone Hpending.
    exists (afterPolls ops first n w).
    repeat split.
    + unfold pollUntilDone.
      replace maxPolls with (n + (maxPolls - n)) at 1 by lia.
      erewrite bind_Ok.
      2:{ rewrite (pollLoop_prefix env ops n) by (auto; lia).
          apply pollLoop_stop. now left. }
      cbn [fst]. rewrite Hdone. reflexivity.
    + apply trace_afterPolls.
    + apply countPolls_pollTrace.
    + apply polls_afterPolls.
  - intros Hpending.
    exists (afterPolls ops first 20 w).
    repeat split.
    + unfold pollUntilDone.
      replace maxPolls with (20 + 0) at 1 by lia.
      erewrite bind_Ok.
      2:{ rewrite (pollLoop_prefix env ops 20) by (auto; intros; apply Hpending; lia).
          apply pollLoop_stop. right. lia. }
      cbn [fst]. rewrite Hpending by lia. reflexivity.
    + apply trace_afterPolls.
    + apply polls_afterPolls.
Qed.

(** C1, on a run that is done at the third request and on one that never
    is. *)
Lemma poll_loop_outcome_witness :
  (exists w',
     pollUntilDone (Sample.scripted Sample.pending Sample.doneAtThird NoAIStudio)
       Sample.pending Sample.page
     = (Ok (Sample.finished (Some [Sample.clip])), w') /\
     countPolls (trace w') = 3) /\
  (exists w',
     pollUntilDone (Sample.scripted Sample.pending Sample.neverDone NoAIStudio)
       Sample.pending Sample.page
     = (Exc (newError Msg.timeout), w') /\
     countPolls (trace w') = 20).
Proof.
  split.
  - destruct (poll_loop_outcome
                (Sample.scripted Sample.pending Sample.doneAtThird NoAIStudio)
                (fun k => if (k <? 2)%nat then Sample.pending
                          else Sample.finished (Some [Sample.clip]))
                Sample.pending Sample.page) as [H _].
    + intros k. simpl. unfold Sample.doneAtThird.
      destruct (k <? 2)%nat; reflexivity.
    + destruct (H 3) as [w' [E [T _]]].
      * lia.
      * reflexivity.
      * intros j Hj.
        destruct j as [ | [ | [ | j]]]; try reflexivity. lia.
      * exists w'. split; [ exact E | rewrite T; reflexivity ].
  - destruct (poll_loop_outcome
                (Sample.scripted Sample.pending Sample.neverDone NoAIStudio)
                (fun _ => Sample.pending) Sample.pending Sample.page) as [_ H].
    + intros k. reflexivity.
    + destruct H as [w' [E [_ [T _]]]].
      * intros j _. destruct j; reflexivity.
      * exists w'. split; [ exact E | rewrite T; reflexivity ].
Defined.

(** C6.  In whichever pass of the loop the status request fails (the pass
    after [n < 20] answered requests that left the operation pending),
    [generateContent] ends there: it throws the error 'Failed to get video
    generation status. Please try again.' in place of the failure [e], and
    the failed request is the last call it makes. *)
Theorem poll_failure_is_fatal (env : Env) (prompt imageBytes apiKey : string)
    (cfg : VideoConfig) (w : World) (first : Operation)
    (ops : nat -> Operation) (n : nat) (e : Thrown) :
  generateVideos env (params prompt imageBytes cfg) = Resolved first ->
  n < 20 ->
  (forall j, j < n ->
     getVideosOperation env (polls w + j) = Resolved (ops (polls w + j))) ->
  (forall j, j <= n -> done (polledAt ops first (polls w) j) = false) ->
  getVideosOperation env (polls w + n) = Rejected e ->
  exists w',
    generateContent env prompt imageBytes apiKey cfg w
    = (Exc (newError Msg.pollFailed), w') /\
    trace w' =
      (trace w ++ EvGenerateVideos (params prompt imageBytes cfg)
               :: pollTrace ops first (polls w) n
               ++ [EvDelay 10000;
                   EvGetVideosOperation (polledAt ops first (polls w) n)])%list /\
    polls w' = polls w + S n.
Proof.
  intros Hs Hn Hr Hd He. pose proof (eq_refl : maxPolls = 20) as HM.
  set (p := params prompt imageBytes cfg) in *.
  set (w1 := afterSubmit p w).
  assert (P1 : polls w1 = polls w) by reflexivity.
  assert (T1 : trace w1 = (trace w ++ [EvGenerateVideos p])%list) by reflexivity.
  exists (record_console (ConsoleError "Error polling for operation status:" e)
            (afterPoll (polledAt ops first (polls w) n)
               (afterPolls ops first n w1))).
  repeat split.
  - unfold generateContent. fold p.
    rewrite (bind_Ok _ _ w first (record_event (EvGenerateVideos p) false w))
      by (unfold callGenerateVideos; rewrite bind_modify, Hs; reflexivity).
    rewrite bind_modify. fold (afterSubmit p w). fold w1.
    apply bind_Exc. unfold pollUntilDone. apply bind_Exc.
    replace maxPolls with (n + S (maxPolls - S n)) by lia.
    rewrite (pollLoop_prefix env ops n);
      [ | rewrite P1; auto | rewrite P1; intros; apply Hd; lia | lia ].
    rewrite P1. apply pollLoop_step_fail.
    + apply Hd. lia.
    + lia.
    + rewrite polls_afterPolls, P1. exact He.
  - rewrite trace_record_console, trace_afterPoll, trace_afterPolls, T1, P1, <- !app_assoc.
    reflexivity.
  - rewrite polls_record_console, polls_afterPoll, polls_afterPolls, P1. lia.
Qed.

(** C6, on a run whose second status request fails in transport. *)
Lemma poll_failure_is_fatal_witness :
  exists w',
    generateContent (Sample.scripted Sample.pending Sample.failsAtSecond NoAIStudio)
      "a cat surfing" "" "KEY" Sample.cfg Sample.page
    = (Exc (newError Msg.pollFailed), w') /\
    polls w' = 2.
Proof.
  destruct (poll_failure_is_fatal
              (Sample.scripted Sample.pending Sample.failsAtSecond NoAIStudio)
              "a cat surfing" "" "KEY" Sample.cfg Sample.page Sample.pending
              (fun _ => Sample.pending) 1 (ErrorInstance "Failed to fetch"))
    as [w' [E [_ P]]].
  - reflexivity.
  - lia.
  - intros j Hj. destruct j; [ reflexivity | lia ].
  - intros j Hj. destruct j as [ | [ | j]]; reflexivity.
  - reflexivity.
  - exists w'. split; [ exact E | exact P ].
Defined.

(** ** Properties of the classification of errors *)

Lemma classify_run (e : Thrown) (w : World) :
  messageTyped e = true -> classify e w = (Ok (classified e), w).
Proof.
  intros H. destruct e as [m | [m | ] | s | | | v]; try reflexivity.
  discriminate H.
Qed.


Lemma classifyMessage_credential m :
  Rule.credential (Str.toLowerCase m) = true ->
  classifyMessage m =
  {| userFriendlyMessage := Msg.invalidKey; shouldOpenDialog := true |}.
Proof. intros H. unfold classifyMessage. now rewrite H. Qed.

Lemma classifyMessage_blocked m :
  Rule.credential (Str.toLowerCase m) = false ->
  Rule.blocked (Str.toLowerCase m) = true ->
  classifyMessage m =
  {| userFriendlyMessage := Msg.blocked; shouldOpenDialog := false |}.
Proof. intros H1 H2. unfold classifyMessage. now rewrite H1, H2. Qed.

Lemma classifyMessage_quota m :
  Rule.credential (Str.toLowerCase m) = false ->
  Rule.blocked (Str.toLowerCase m) = false ->
  Rule.quota (Str.toLowerCase m) = true ->
  classifyMessage m =
  {| userFriendlyMessage := Msg.quota; shouldOpenDialog := false |}.
Proof. intros H1 H2 H3. unfold classifyMessage. now rewrite H1, H2, H3. Qed.

(** A message with a quota pattern is decided by one of the first three
    conditions. *)
Lemma classifyMessage_upto_quota m :
  Rule.quota (Str.toLowerCase m) = true ->
  userFriendlyMessage (classifyMessage m) = Msg.invalidKey \/
  userFriendlyMessage (classifyMessage m) = Msg.blocked \/
  userFriendlyMessage (classifyMessage m) = Msg.quota.
Proof.
  intros H. unfold classifyMessage.
  destruct (Rule.credential _); [ now left | ].
  destruct (Rule.blocked _); [ now right; left | ].
  rewrite H. now right; right.
Qed.




(** C2, as stated, fails: this message contains 'quota' and 'invalid
    argument', and is classified by the first condition of the chain. *)
Lemma quota_precedes_invalid_argument_counterexample :
  Rule.quota
    (Str.toLowerCase "Permission denied: quota check failed (invalid argument)")
  = true /\
  Rule.invalidArgument
    (Str.toLowerCase "Permission denied: quota check failed (invalid argument)")
  = true /\
  classify
    (ErrorInstance "Permission denied: quota check failed (invalid argument)")
    Sample.page
  = (Ok {| userFriendlyMessage := Msg.invalidKey; shouldOpenDialog := true |},
     Sample.page) /\
  Msg.invalidKey <> Msg.quota.
Proof. repeat split. discriminate. Qed.

(** C2, amended.  A message that contains a quota or rate-limit pattern and
    the invalid-argument pattern is never given the bad-configuration
    message, and it is given the quota message whenever it contains none of
    the patterns of the two conditions that come before (credential and
    safety block). *)
Theorem quota_precedes_invalid_argument (m : string) (w : World) :
  Rule.quota (Str.toLowerCase m) = true ->
  Rule.invalidArgument (Str.toLowerCase m) = true ->
  (Rule.credential (Str.toLowerCase m) = false ->
   Rule.blocked (Str.toLowerCase m) = false ->
   classify (ErrorInstance m) w =
   (Ok {| userFriendlyMessage := Msg.quota; shouldOpenDialog := false |}, w)) /\
  (exists c, classify (ErrorInstance m) w = (Ok c, w) /\
             userFriendlyMessage c <> Msg.invalidArgument).
Proof.
  intros Hq _. split.
  - intros Hc Hb. rewrite classify_run by reflexivity. simpl.
    now rewrite classifyMessage_quota.
  - exists (classifyMessage m). split; [ apply classify_run; reflexivity | ].
    destruct (classifyMessage_upto_quota m Hq) as [-> | [-> | ->]];
      discriminate.
Qed.

Lemma quota_precedes_invalid_argument_witness :
  classify (ErrorInstance "Quota exceeded: INVALID ARGUMENT") Sample.page =
  (Ok {| userFriendlyMessage := Msg.quota; shouldOpenDialog := false |},
   Sample.page).
Proof.
  apply (quota_precedes_invalid_argument "Quota exceeded: INVALID ARGUMENT"
           Sample.page); reflexivity.
Defined.

Lemma showStatusError_run (msg : string) (w : World) :
  showStatusError msg w = (Ok tt, set_statusEl (errorSpan msg) w).
Proof. reflexivity. Qed.

(** The [catch] block, step by step. *)
Lemma catchBlock_run (env : Env) (e : Thrown) (w : World) :
  messageTyped e = true ->
  catchBlock env e w =
  (if shouldOpenDialog (classified e) then openApiKeyDialog env else ret tt)
    (set_statusEl (errorSpan (userFriendlyMessage (classified e)))
       (record_console (ConsoleError "Video generation failed:" e) w)).
Proof.
  intros T. unfold catchBlock, consoleError. rewrite bind_modify.
  erewrite bind_Ok by (apply classify_run; exact T).
  erewrite bind_Ok by apply showStatusError_run.
  reflexivity.
Qed.

(** C3.  An [Error] whose lower-cased message contains one of the four
    credential patterns is given the invalid-key message with the dialog
    flag set; the [catch] block then shows that message and, with the
    message on the page, runs [openApiKeyDialog]; where the host provides
    [openSelectKey] this opens the key selection, the message still shown. *)
Theorem credential_error_prompts (env : Env) (m : string) (w : World) :
  Rule.credential (Str.toLowerCase m) = true ->
  classify (ErrorInstance m) w =
    (Ok {| userFriendlyMessage := Msg.invalidKey; shouldOpenDialog := true |},
     w) /\
  catchBlock env (ErrorInstance m) w =
    openApiKeyDialog env
      (set_statusEl (errorSpan Msg.invalidKey)
         (record_console
            (ConsoleError "Video generation failed:" (ErrorInstance m)) w)) /\
  (forall result,
      aistudio env = AIStudioSelectKey result ->
      trace (snd (catchBlock env (ErrorInstance m) w)) =
        (trace w ++ [EvOpenSelectKey])%list /\
      statusEl (snd (catchBlock env (ErrorInstance m) w)) =
        errorSpan Msg.invalidKey).
Proof.
  intros H.
  assert (C : classified (ErrorInstance m) =
              {| userFriendlyMessage := Msg.invalidKey;
                 shouldOpenDialog := true |})
    by (apply classifyMessage_credential; exact H).
  split; [ | split ].
  - rewrite classify_run by reflexivity. rewrite C. reflexivity.
  - rewrite catchBlock_run by reflexivity. rewrite C. reflexivity.
  - intros result Hs. rewrite catchBlock_run by reflexivity. rewrite C.
    cbn [shouldOpenDialog userFriendlyMessage].
    unfold openApiKeyDialog. rewrite Hs, bind_modify.
    destruct result as [[] | e']; split; reflexivity.
Qed.

(** C3, on the message of scenario E and a host with a key selection. *)
Lemma credential_error_prompts_witness :
  trace (snd (catchBlock
                (Sample.scripted Sample.pending Sample.neverDone
                   (AIStudioSelectKey (Resolved tt)))
                (ErrorInstance "API key not valid") Sample.page))
  = [EvOpenSelectKey].
Proof.
  destruct (credential_error_prompts
              (Sample.scripted Sample.pending Sample.neverDone
                 (AIStudioSelectKey (Resolved tt)))
              "API key not valid" Sample.page eq_refl) as [_ [_ H]].
  destruct (H (Resolved tt) eq_refl) as [T _]. exact T.
Defined.

Lemma pollUntilDone_Ok_done (env : Env) (first op : Operation) (w w' : World) :
  pollUntilDone env first w = (Ok op, w') -> done op = true.
Proof.
  unfold pollUntilDone, bind.
  destruct (pollLoop env maxPolls first 0 w) as [[[op' pc] | e | ] w1];
    try discriminate.
  cbn [fst]. destruct (done op') eqn:D; simpl; [ | discriminate ].
  intros H. inversion H. subst. exact D.
Qed.

(** C4.  When the polling ends with an operation (which is then done) whose
    [generatedVideos] is absent or empty, [generateContent] throws the error
    'No videos were generated. The prompt may have been blocked.'; that
    error is given the safety-block message with the dialog flag off, and
    the [catch] block shows the message and makes no call: no key selection
    is opened. *)
Theorem empty_result_is_safety_block (env : Env)
    (prompt imageBytes apiKey : string) (cfg : VideoConfig)
    (w w2 : World) (first op : Operation) :
  generateVideos env (params prompt imageBytes cfg) = Resolved first ->
  pollUntilDone env first (afterSubmit (params prompt imageBytes cfg) w)
    = (Ok op, w2) ->
  videosOf op = None \/ videosOf op = Some [] ->
  done op = true /\
  generateContent env prompt imageBytes apiKey cfg w
    = (Exc (newError Msg.noVideos), w2) /\
  (forall w',
      classify (newError Msg.noVideos) w' =
        (Ok {| userFriendlyMessage := Msg.blocked; shouldOpenDialog := false |},
         w')) /\
  (forall w',
      catchBlock env (newError Msg.noVideos) w' =
        (Ok tt,
         set_statusEl (errorSpan Msg.blocked)
           (record_console
              (ConsoleError "Video generation failed:" (newError Msg.noVideos))
              w'))).
Proof.
  intros Hs Hp Hv. split; [ | split; [ | split ] ].
  - eapply pollUntilDone_Ok_done; eassumption.
  - unfold generateContent.
    rewrite (bind_Ok _ _ w first
               (record_event (EvGenerateVideos (params prompt imageBytes cfg))
                  false w))
      by (unfold callGenerateVideos; rewrite bind_modify, Hs; reflexivity).
    rewrite bind_modify.
    fold (afterSubmit (params prompt imageBytes cfg) w).
    rewrite (bind_Ok _ _ _ _ _ Hp).
    destruct Hv as [-> | ->]; reflexivity.
  - intros w'. reflexivity.
  - intros w'. rewrite catchBlock_run by reflexivity. reflexivity.
Qed.

(** C4, on a run whose first status request reports done with an empty
    list. *)
Lemma empty_result_is_safety_block_witness :
  generateContent (Sample.scripted Sample.pending Sample.doneEmpty NoAIStudio)
    "a cat surfing" "" "KEY" Sample.cfg Sample.page
  = (Exc (newError Msg.noVideos),
     afterPoll Sample.pending
       (afterSubmit (params "a cat surfing" "" Sample.cfg) Sample.page)).
Proof.
  apply (empty_result_is_safety_block
           (Sample.scripted Sample.pending Sample.doneEmpty NoAIStudio)
           "a cat surfing" "" "KEY" Sample.cfg Sample.page
           (afterPoll Sample.pending
              (afterSubmit (params "a cat surfing" "" Sample.cfg) Sample.page))
           Sample.pending (Sample.finished (Some []))).
  - reflexivity.
  - vm_compute. reflexivity.
  - right. reflexivity.
Defined.

(** C8, as stated, fails for a value that is not an [Error] instance: the
    rejected object [{ message: 'service unavailable' }] matches none of the
    seven conditions, and its text is not in the message shown. *)
Lemma fallback_passes_message_counterexample :
  rawMessage (PlainObject (Some "service unavailable"))
    = Some "service unavailable" /\
  matchesNoRule "service unavailable" = true /\
  classify (PlainObject (Some "service unavailable")) Sample.page
    = (Ok {| userFriendlyMessage := Msg.unexpected; shouldOpenDialog := false |},
       Sample.page) /\
  Str.includes Msg.unexpected "service unavailable" = false.
Proof. repeat split. Qed.

(** C8, amended.  For a thrown value whose message matches none of the
    seven conditions (the message of an [Error] instance being a string, as
    its type says) the dialog flag is off; when the value is an [Error]
    instance the message shown is 'An error occurred: ' followed by the raw
    message, and when it is not, the message shown is the fixed text 'An
    unexpected error occurred during video generation.'. *)
Theorem fallback_passes_message (e : Thrown) (w : World) :
  messageTyped e = true ->
  (forall m, rawMessage e = Some m -> matchesNoRule m = true) ->
  classify e w =
  (Ok {| userFriendlyMessage :=
           match e with
           | ErrorInstance m => Msg.fallbackPrefix ++ m
           | _ => Msg.unexpected
           end;
         shouldOpenDialog := false |}, w).
Proof.
  intros T H. rewrite classify_run by exact T.
  destruct e as [m | o | s | | | v]; try reflexivity.
  specialize (H m eq_refl). unfold matchesNoRule in H.
  cbn [classified]. unfold classifyMessage.
  repeat match goal with
         | |- context [if ?b then _ else _] =>
             destruct b; [ cbn [orb negb] in H; discriminate H | ]
         end.
  reflexivity.
Qed.

Lemma fallback_passes_message_witness :
  classify (ErrorInstance "Boom") Sample.page =
  (Ok {| userFriendlyMessage := "An error occurred: Boom";
         shouldOpenDialog := false |}, Sample.page).
Proof.
  apply (fallback_passes_message (ErrorInstance "Boom") Sample.page).
  - reflexivity.
  - intros m E. inversion E. reflexivity.
Defined.

(** ** What a computation adds to the trace *)

Section Appends.

Variable ok : Event -> bool.

Lemma appends_ret {A} (a : A) : appends ok (ret a).
Proof. intros w. exists []. simpl. now rewrite app_nil_r. Qed.

Lemma appends_throw {A} (e : Thrown) : appends ok (@throw A e).
Proof. intros w. exists []. simpl. now rewrite app_nil_r. Qed.

Lemma appends_gets {A} (f : World -> A) : appends ok (gets f).
Proof. intros w. exists []. simpl. now rewrite app_nil_r. Qed.

Lemma appends_await {A} (o : Outcome A) : appends ok (await o).
Proof. destruct o; intros w; exists []; simpl; now rewrite app_nil_r. Qed.

Lemma appends_modify (f : World -> World) :
  (forall w, trace (f w) = trace w) -> appends ok (modify f).
Proof. intros H w. exists []. simpl. now rewrite H, app_nil_r. Qed.

Lemma appends_record_event ev polled :
  ok ev = true -> appends ok (modify (record_event ev polled)).
Proof. intros H w. exists [ev]. simpl. now rewrite H. Qed.

Lemma appends_bind {A B} (m : M A) (k : A -> M B) :
  appends ok m -> (forall a, appends ok (k a)) -> appends ok (bind m k).
Proof.
  intros Hm Hk w. unfold bind. destruct (Hm w) as [l [T F]].
  destruct (m w) as [[a | e | ] w']; simpl in *; try (now exists l).
  destruct (Hk a w') as [l' [T' F']]. exists (l ++ l')%list. split.
  - now rewrite T', T, app_assoc.
  - rewrite forallb_app, F, F'. reflexivity.
Qed.

Lemma appends_tryCatch {A} (m : M A) (h : Thrown -> M A) :
  appends ok m -> (forall e, appends ok (h e)) -> appends ok (tryCatch m h).
Proof.
  intros Hm Hh w. unfold tryCatch. destruct (Hm w) as [l [T F]].
  destruct (m w) as [[a | e | ] w']; simpl in *; try (now exists l).
  destruct (Hh e w') as [l' [T' F']]. exists (l ++ l')%list. split.
  - now rewrite T', T, app_assoc.
  - rewrite forallb_app, F, F'. reflexivity.
Qed.

End Appends.

Ltac extend_step :=
  lazymatch goal with
  | |- appends _ (bind _ _) => apply appends_bind; [ | intros ? ]
  | |- appends _ (tryCatch _ _) => apply appends_tryCatch; [ | intros ? ]
  | |- appends _ (ret _) => apply appends_ret
  | |- appends _ (throw _) => apply appends_throw
  | |- appends _ (gets _) => apply appends_gets
  | |- appends _ (await _) => apply appends_await
  | |- appends _ (modify (record_event _ _)) =>
      apply appends_record_event; reflexivity
  | |- appends _ (modify _) => apply appends_modify; reflexivity
  | |- appends _ (if ?b then _ else _) => destruct b
  | |- appends _ (match ?x with _ => _ end) => destruct x
  end.

Ltac extend := repeat extend_step.

Section AfterSubmission.

Variable env : Env.

Lemma appends_pollLoop fuel :
  forall operation pollCount,
    appends later (pollLoop env fuel operation pollCount).
Proof.
  induction fuel as [ | fuel IH]; intros operation pollCount; simpl.
  - destruct (negb (done operation) && (pollCount <? maxPolls)%nat);
      [ | extend ].
    intros w. exists []. simpl. now rewrite app_nil_r.
  - unfold consoleLog, consoleError, delay, callGetVideosOperation.
    extend. apply IH.
Qed.

Lemma appends_pollUntilDone operation :
  appends later (pollUntilDone env operation).
Proof.
  unfold pollUntilDone. apply appends_bind; [ apply appends_pollLoop | ].
  intros r. extend.
Qed.

Lemma appends_download apiKey videos :
  appends later (download env apiKey videos).
Proof.
  induction videos as [ | v videos IH]; simpl;
    unfold callFetch, consoleLog; extend. exact IH.
Qed.

(** [generateContent] begins with the submission of the request it built
    and submits nothing else. *)
Lemma generateContent_trace prompt imageBytes apiKey cfg w :
  exists rest,
    trace (snd (generateContent env prompt imageBytes apiKey cfg w)) =
      (trace w ++ EvGenerateVideos (params prompt imageBytes cfg) :: rest)%list /\
    forallb later rest = true.
Proof.
  unfold generateContent.
  set (p := params prompt imageBytes cfg).
  match goal with
  | |- context [bind (callGenerateVideos env p) ?k] =>
      assert (K : forall a, appends later (k a))
  end.
  { intros first. extend; try apply appends_pollUntilDone;
      apply appends_download. }
  destruct (generateVideos env p) as [first | e] eqn:Hs.
  - rewrite (bind_Ok _ _ w first (record_event (EvGenerateVideos p) false w))
      by (unfold callGenerateVideos; rewrite bind_modify, Hs; reflexivity).
    destruct (K first (record_event (EvGenerateVideos p) false w)) as [l [T F]].
    exists l. split; [ | exact F ].
    rewrite T. simpl trace. rewrite <- app_assoc. reflexivity.
  - rewrite (bind_Exc _ _ w e (record_event (EvGenerateVideos p) false w))
      by (unfold callGenerateVideos; rewrite bind_modify, Hs; reflexivity).
    exists []. split; reflexivity.
Qed.

End AfterSubmission.

(** ** Properties of the request *)

(** C5.  Whatever the prompt (empty or not), the image bytes and the
    configuration, [generateContent] starts by submitting one request, and
    submits no other; in that request [numberOfVideos] is 1 and the image
    field is present exactly when the image bytes are not the empty
    string. *)
Theorem request_shape (env : Env) (prompt imageBytes apiKey : string)
    (cfg : VideoConfig) (w : World) :
  numberOfVideos (config (params prompt imageBytes cfg)) = 1%Z /\
  (image (params prompt imageBytes cfg) <> None <-> imageBytes <> "") /\
  exists rest,
    trace (snd (generateContent env prompt imageBytes apiKey cfg w)) =
      (trace w ++ EvGenerateVideos (params prompt imageBytes cfg) :: rest)%list /\
    forallb later rest = true.
Proof.
  split; [ reflexivity | split ].
  - unfold params; cbn [image].
    destruct (String.eqb_spec imageBytes "") as [E | E]; split; intros H.
    + exfalso. apply H. reflexivity.
    + contradiction.
    + exact E.
    + discriminate.
  - apply generateContent_trace.
Qed.

Section Split.

Lemma append_assoc (a b c : string) : (a ++ b) ++ c = a ++ (b ++ c).
Proof. induction a as [ | x a IH]; simpl; [ | rewrite IH ]; reflexivity. Qed.

Lemma lacks_append c (a b : string) :
  Str.lacks c (a ++ b) = Str.lacks c a && Str.lacks c b.
Proof.
  induction a as [ | x a IH]; simpl; [ reflexivity | ].
  rewrite IH. apply andb_assoc.
Qed.

(** The first separator ends the first piece. *)
Lemma split_first_piece sep (a b : string) :
  Str.lacks sep a = true ->
  Str.split sep (a ++ String sep b) = a :: Str.split sep b.
Proof.
  induction a as [ | x a IH]; simpl; intros H.
  - now rewrite Ascii.eqb_refl.
  - apply andb_prop in H. destruct H as [Hx Ha].
    apply negb_true_iff in Hx. rewrite Hx, (IH Ha). reflexivity.
Qed.

(** What [blobToBase64] returns does not depend on the declared type of the
    file, as long as that type has no comma. *)
Lemma blobToBase64_payload (f : File) :
  Str.lacks "," (file_type f) = true ->
  blobToBase64 f = nth 0 (Str.split "," (file_base64 f)) "".
Proof.
  intros H. unfold blobToBase64, readAsDataURL.
  set (t := if String.eqb (file_type f) "" then "application/octet-stream"
            else file_type f).
  assert (Ht : Str.lacks "," t = true) by (subst t; destruct (String.eqb _ _); auto).
  change (";base64," ++ file_base64 f)
    with (";base64" ++ String "," (file_base64 f)).
  rewrite <- !append_assoc.
  rewrite split_first_piece; [ reflexivity | ].
  rewrite !lacks_append, Ht. reflexivity.
Qed.

End Split.

(** C9.  An image attached to a request always declares the type
    'image/png'; and two uploaded files with the same bytes and different
    declared types lead to the same request: the type of the file does not
    reach it. *)
Theorem image_mime_type_fixed (prompt : string) (cfg : VideoConfig) :
  (forall imageBytes img,
      image (params prompt imageBytes cfg) = Some img ->
      mimeType img = "image/png") /\
  (forall f g w,
      file_base64 f = file_base64 g ->
      Str.lacks "," (file_type f) = true ->
      Str.lacks "," (file_type g) = true ->
      params prompt (base64data (snd (uploadChange (Some f) w))) cfg =
      params prompt (base64data (snd (uploadChange (Some g) w))) cfg).
Proof.
  split.
  - intros imageBytes img. unfold params; cbn [image].
    destruct (String.eqb imageBytes ""); [ discriminate | ].
    intros H. inversion H. reflexivity.
  - intros f g w Hb Hf Hg. cbn [uploadChange modify snd set_upload base64data].
    now rewrite (blobToBase64_payload f Hf), (blobToBase64_payload g Hg), Hb.
Qed.

(** C9, on a JPEG and a PNG file with the same bytes. *)
Lemma image_mime_type_fixed_witness :
  (exists img,
     image (params "a cat surfing"
              (base64data (snd (uploadChange (Some Sample.jpeg) Sample.page)))
              Sample.cfg) = Some img /\
     mimeType img = "image/png") /\
  params "a cat surfing"
    (base64data (snd (uploadChange (Some Sample.jpeg) Sample.page))) Sample.cfg =
  params "a cat surfing"
    (base64data (snd (uploadChange (Some Sample.png) Sample.page))) Sample.cfg.
Proof.
  destruct (image_mime_type_fixed "a cat surfing" Sample.cfg) as [H1 H2].
  split.
  - exists {| imageBytes := "QUJD"; mimeType := "image/png" |}.
    split; [ reflexivity | ].
    apply (H1 (base64data (snd (uploadChange (Some Sample.jpeg) Sample.page)))).
    reflexivity.
  - apply H2; reflexivity.
Defined.

(** ** The controls are enabled again *)

Lemma tryFinally_setControlsDisabled {A} (m : M A) (d : bool) (w : World) :
  finishes m ->
  controls (snd (tryFinally m (setControlsDisabled d) w)) = allControls d.
Proof.
  intros Hm. unfold tryFinally. specialize (Hm w).
  destruct (m w) as [[a | e | ] w']; cbn [fst] in Hm;
    [ reflexivity | reflexivity | contradiction ].
Qed.

Lemma controls_attempt (env : Env) (apiKey : string) (w : World) :
  controls (snd (attempt env apiKey w)) = allControls false.
Proof.
  unfold attempt. rewrite !bind_gets, !bind_modify.
  unfold setControlsDisabled at 1. rewrite bind_modify.
  apply tryFinally_setControlsDisabled. finish.
Qed.

(** C10.  A call of [generate] comes to an end; and when the API key is
    configured, so that the controls are disabled and a generation is
    attempted, all six controls are enabled at the end, whatever the
    environment answers: success, time-out, empty result, or any error
    thrown on the way, the [catch] block's own included. *)
Theorem controls_reenabled (env : Env) (w : World) :
  fst (generate env w) <> OutOfFuel /\
  (forall apiKey,
      API_KEY env = Some apiKey ->
      apiKey <> "" ->
      controls (snd (generate env w)) = allControls false).
Proof.
  split; [ apply finishes_generate | ].
  intros apiKey Hk Hne. unfold generate. rewrite Hk.
  destruct (String.eqb_spec apiKey ""); [ contradiction | ].
  apply controls_attempt.
Qed.

(** C10, on runs that end in success, time-out, empty result, failed status
    request, and a key selection that itself fails. *)
Lemma controls_reenabled_witness :
  controls (snd (generate
    (Sample.scripted Sample.pending Sample.doneAtThird NoAIStudio) Sample.page))
    = allControls false /\
  controls (snd (generate
    (Sample.scripted Sample.pending Sample.neverDone NoAIStudio) Sample.page))
    = allControls false /\
  controls (snd (generate
    (Sample.scripted Sample.pending Sample.doneEmpty NoAIStudio) Sample.page))
    = allControls false /\
  controls (snd (generate
    (Sample.scripted Sample.pending Sample.failsAtSecond NoAIStudio) Sample.page))
    = allControls false /\
  controls (snd (generate
    (Sample.refused (AIStudioSelectKey (Rejected (StringValue "closed"))))
    Sample.page))
    = allControls false.
Proof.
  repeat apply conj;
    match goal with
    | |- controls (snd (generate ?env ?w)) = _ =>
        apply (controls_reenabled env w) with (apiKey := "KEY");
          [ reflexivity | discriminate ]
    end.
Defined.

(** ** The scenarios of the specification, run on sample environments *)

(** Scenario A: done at a status request, one video: the asset is fetched
    with the key appended, installed, and the status reports success. *)
Example scenario_success :
  let r := generate
             (Sample.scripted Sample.pending Sample.doneAtThird NoAIStudio)
             Sample.page in
  fst r = Ok tt /\
  statusEl (snd r) = InnerText "Video generated successfully." /\
  video_src (snd r) = "blob:bytes" /\
  videoContainer_display (snd r) = "block" /\
  last (trace (snd r)) EvOpenSelectKey
    = EvFetch "https://host/clip.mp4?alt=media&key=KEY" /\
  controls (snd r) = allControls false.
Proof. vm_compute. repeat split. Qed.

(** Scenario B: never done: the time-out message is shown after 20 status
    requests. *)
Example scenario_timeout :
  let r := generate
             (Sample.scripted Sample.pending Sample.neverDone NoAIStudio)
             Sample.page in
  fst r = Ok tt /\
  statusEl (snd r) = errorSpan Msg.timedOut /\
  countPolls (trace (snd r)) = 20 /\
  controls (snd r) = allControls false.
Proof. vm_compute. repeat split. Qed.

(** Scenario C: done with an empty list: the safety-block message, and no
    key selection although the host offers one. *)
Example scenario_empty_result :
  let r := generate
             (Sample.scripted Sample.pending Sample.doneEmpty
                (AIStudioSelectKey (Resolved tt)))
             Sample.page in
  fst r = Ok tt /\
  statusEl (snd r) = errorSpan Msg.blocked /\
  existsb (fun ev => match ev with EvOpenSelectKey => true | _ => false end)
    (trace (snd r)) = false.
Proof. vm_compute. repeat split. Qed.

(** Scenario D: the asset fetch answers with a response that is not ok. *)
Example scenario_fetch_not_ok :
  let env :=
    {| API_KEY := Some "KEY";
       generateVideos := fun _ => Resolved (Sample.finished (Some [Sample.clip]));
       getVideosOperation := Sample.neverDone;
       decodeURIComponent := fun s => Resolved s;
       fetch := fun _ =>
         Resolved {| ok := false; statusText := "Forbidden";
                     blob := Resolved "" |};
       createObjectURL := fun b => b;
       aistudio := NoAIStudio |} in
  fst (generateContent env "a cat surfing" "" "KEY" Sample.cfg Sample.page)
    = Exc (newError "Failed to fetch video file: Forbidden") /\
  statusEl (snd (generate env Sample.page)) = errorSpan Msg.network.
Proof. vm_compute. repeat split. Qed.

(** Scenario E: the submission is refused for the key: the invalid-key
    message is shown and the key selection of the host is opened. *)
Example scenario_invalid_key :
  let r := generate (Sample.refused (AIStudioSelectKey (Resolved tt)))
             Sample.page in
  fst r = Ok tt /\
  statusEl (snd r) = errorSpan Msg.invalidKey /\
  last (trace (snd r)) (EvDelay 0) = EvOpenSelectKey /\
  controls (snd r) = allControls false.
Proof. vm_compute. repeat split. Qed.

(** The click listener submits nothing for a prompt of white space only. *)
Example blank_prompt_is_not_submitted :
  let r := generateButtonClick
             (Sample.scripted Sample.pending Sample.neverDone NoAIStudio)
             (set_prompt "   " Sample.page) in
  trace (snd r) = [] /\
  statusEl (snd r) = errorSpan "Please enter a prompt to generate a video.".
Proof. vm_compute. repeat split. Qed.

(** An uploaded file reaches the request as Base64 text declared as PNG. *)
Example uploaded_jpeg_is_declared_png :
  image (params "a cat surfing"
           (base64data (snd (uploadChange (Some Sample.jpeg) Sample.page)))
           Sample.cfg)
  = Some {| imageBytes := "QUJD"; mimeType := "image/png" |}.
Proof. reflexivity. Qed.

(** ** One call of [generate], from the outcome of [generateContent] *)

Section Attempt.

Variable env : Env.

(** [attempt] is [generateContent] on the page with the controls disabled,
    then the success status or the [catch] block, then the [finally]
    block. *)
Lemma attempt_run (apiKey : string) (w : World) :
  attempt env apiKey w =
  match generateContent env (prompt w) (base64data w) apiKey (configOf w)
          (started w) with
  | (Ok _, w1) =>
      (Ok tt, settled (set_statusEl (InnerText "Video generated successfully.") w1))
  | (Exc e, w1) =>
      match catchBlock env e w1 with
      | (OutOfFuel, w2) => (OutOfFuel, w2)
      | (r, w2) => (r, settled w2)
      end
  | (OutOfFuel, w1) => (OutOfFuel, w1)
  end.
Proof.
  unfold attempt. rewrite !bind_gets, !bind_modify.
  unfold setControlsDisabled at 1. rewrite bind_modify.
  fold (allControls true). fold (started w).
  unfold tryFinally, tryCatch. rewrite !bind_gets.
  change (prompt (started w)) with (prompt w).
  change (base64data (started w)) with (base64data w).
  fold (configOf w). unfold bind at 1.
  destruct (generateContent env (prompt w) (base64data w) apiKey (configOf w)
              (started w)) as [[[] | e | ] w1]; reflexivity.
Qed.

Lemma generate_configured (apiKey : string) (w : World) :
  API_KEY env = Some apiKey -> apiKey <> "" ->
  generate env w = attempt env apiKey w.
Proof.
  intros Hk Hne. unfold generate. rewrite Hk.
  destruct (String.eqb_spec apiKey ""); [ contradiction | reflexivity ].
Qed.

(** A call whose [generateContent] throws an error that does not ask for
    the key selection: the message is shown and the call returns. *)
Lemma generate_after_error (apiKey : string) (w w1 : World) (e : Thrown) :
  API_KEY env = Some apiKey -> apiKey <> "" ->
  generateContent env (prompt w) (base64data w) apiKey (configOf w) (started w)
    = (Exc e, w1) ->
  shouldOpenDialog (classified e) = false ->
  messageTyped e = true ->
  generate env w =
  (Ok tt,
   settled (set_statusEl (errorSpan (userFriendlyMessage (classified e)))
              (record_console (ConsoleError "Video generation failed:" e) w1))).
Proof.
  intros Hk Hne Hg Hd Ht. rewrite (generate_configured apiKey) by assumption.
  rewrite attempt_run, Hg, (catchBlock_run env e w1 Ht), Hd. reflexivity.
Qed.

(** The outcome of the polling decides how [generateContent] goes on. *)
Lemma generateContent_poll_error prompt imageBytes apiKey cfg w first e w1 :
  generateVideos env (params prompt imageBytes cfg) = Resolved first ->
  pollUntilDone env first (afterSubmit (params prompt imageBytes cfg) w)
    = (Exc e, w1) ->
  generateContent env prompt imageBytes apiKey cfg w = (Exc e, w1).
Proof.
  intros Hs Hp. unfold generateContent.
  rewrite (bind_Ok _ _ w first
             (record_event (EvGenerateVideos (params prompt imageBytes cfg))
                false w))
    by (unfold callGenerateVideos; rewrite bind_modify, Hs; reflexivity).
  rewrite bind_modify. fold (afterSubmit (params prompt imageBytes cfg) w).
  apply bind_Exc. exact Hp.
Qed.

Lemma generateContent_poll_done prompt imageBytes apiKey cfg w first op w1 v vs :
  generateVideos env (params prompt imageBytes cfg) = Resolved first ->
  pollUntilDone env first (afterSubmit (params prompt imageBytes cfg) w)
    = (Ok op, w1) ->
  videosOf op = Some (v :: vs) ->
  generateContent env prompt imageBytes apiKey cfg w =
  download env apiKey (v :: vs)
    (set_statusEl (InnerText "Downloading video...") w1).
Proof.
  intros Hs Hp Hv. unfold generateContent.
  rewrite (bind_Ok _ _ w first
             (record_event (EvGenerateVideos (params prompt imageBytes cfg))
                false w))
    by (unfold callGenerateVideos; rewrite bind_modify, Hs; reflexivity).
  rewrite bind_modify. fold (afterSubmit (params prompt imageBytes cfg) w).
  rewrite (bind_Ok _ _ _ _ _ Hp), Hv. reflexivity.
Qed.

(** The three ways the polling ends, on a prefix of answered requests. *)
Lemma pollUntilDone_done ops n first w :
  n <= 20 ->
  (forall j, j < n ->
     getVideosOperation env (polls w + j) = Resolved (ops (polls w + j))) ->
  (forall j, j < n -> done (polledAt ops first (polls w) j) = false) ->
  done (polledAt ops first (polls w) n) = true ->
  pollUntilDone env first w =
  (Ok (polledAt ops first (polls w) n), afterPolls ops first n w).
Proof.
  intros Hn Hr Hp Hd. pose proof (eq_refl : maxPolls = 20) as HM.
  unfold pollUntilDone.
  replace maxPolls with (n + (maxPolls - n)) at 1 by lia.
  erewrite bind_Ok.
  2:{ rewrite (pollLoop_prefix env ops n) by (auto; lia).
      apply pollLoop_stop. now left. }
  cbn [fst]. rewrite Hd. reflexivity.
Qed.

Lemma pollUntilDone_timeout ops first w :
  (forall j, j < 20 ->
     getVideosOperation env (polls w + j) = Resolved (ops (polls w + j))) ->
  (forall j, j <= 20 -> done (polledAt ops first (polls w) j) = false) ->
  pollUntilDone env first w =
  (Exc (newError Msg.timeout), afterPolls ops first 20 w).
Proof.
  intros Hr Hp. pose proof (eq_refl : maxPolls = 20) as HM.
  unfold pollUntilDone.
  replace maxPolls with (20 + 0) at 1 by lia.
  erewrite bind_Ok.
  2:{ rewrite (pollLoop_prefix env ops 20) by (auto; intros; apply Hp; lia).
      apply pollLoop_stop. right. lia. }
  cbn [fst]. rewrite Hp by lia. reflexivity.
Qed.

Lemma pollUntilDone_failure ops n first w e :
  n < 20 ->
  (forall j, j < n ->
     getVideosOperation env (polls w + j) = Resolved (ops (polls w + j))) ->
  (forall j, j <= n -> done (polledAt ops first (polls w) j) = false) ->
  getVideosOperation env (polls w + n) = Rejected e ->
  pollUntilDone env first w =
  (Exc (newError Msg.pollFailed),
   record_console (ConsoleError "Error polling for operation status:" e)
     (afterPoll (polledAt ops first (polls w) n) (afterPolls ops first n w))).
Proof.
  intros Hn Hr Hp He. pose proof (eq_refl : maxPolls = 20) as HM.
  unfold pollUntilDone. apply bind_Exc.
  replace maxPolls with (n + S (maxPolls - S n)) by lia.
  rewrite (pollLoop_prefix env ops n);
    [ | auto | intros; apply Hp; lia | lia ].
  apply pollLoop_step_fail.
  - apply Hp. lia.
  - lia.
  - rewrite polls_afterPolls. exact He.
Qed.

End Attempt.

(** ** The download of the results *)

Section Download.

Variable env : Env.
Variable apiKey : string.

(** The decoded URI and the body of each video, when its download goes
    well. *)
Variable dec : GeneratedVideo -> string.
Variable body : GeneratedVideo -> Blob.

Lemma callFetch_run url res w :
  fetch env url = Resolved res ->
  callFetch env url w = (Ok res, record_event (EvFetch url) false w).
Proof. intros H. unfold callFetch. rewrite bind_modify, H. reflexivity. Qed.

Lemma last_cons {A} (x d : A) (l : list A) : last (x :: l) d = last l x.
Proof.
  revert x d. induction l as [ | y l IH]; intros x d; [ reflexivity | ].
  change (last (x :: y :: l) d) with (last (y :: l) d).
  now rewrite !IH.
Qed.

(** One video whose download goes well: it is fetched, installed, and the
    loop goes on with the next one. *)
Lemma download_step v vs w :
  downloads env apiKey v (dec v) (body v) ->
  download env apiKey (v :: vs) w =
  download env apiKey vs
    (record_console (ConsoleLog "Video is ready for playback and download.")
       (set_videoContainer_display "block"
          (set_video (createObjectURL env (body v))
             (record_event (EvFetch (assetURL (dec v) apiKey)) false w)))).
Proof.
  intros [Hd [res [Hf [Hok Hb]]]]. cbn [download].
  rewrite Hd, bind_await.
  rewrite (bind_Ok _ _ _ _ _ (callFetch_run _ _ w Hf)).
  rewrite Hok. cbn [negb]. rewrite Hb, bind_await, !bind_modify.
  unfold consoleLog. rewrite bind_modify. reflexivity.
Qed.

(** A video whose fetch is answered with a response that is not ok: the
    loop is left with the error that carries the status text. *)
Lemma download_not_ok v vs w url res :
  decodeURIComponent env (uri v) = Resolved url ->
  fetch env (assetURL url apiKey) = Resolved res ->
  ok res = false ->
  download env apiKey (v :: vs) w =
  (Exc (newError (Msg.fetchFailed ++ statusText res)),
   record_event (EvFetch (assetURL url apiKey)) false w).
Proof.
  intros Hd Hf Hok. cbn [download].
  rewrite Hd, bind_await.
  rewrite (bind_Ok _ _ _ _ _ (callFetch_run _ _ w Hf)).
  rewrite Hok. reflexivity.
Qed.

(** What a run of downloads that all go well leaves behind. *)
Lemma download_prefix pre :
  forall rest w,
    (forall v, In v pre -> downloads env apiKey v (dec v) (body v)) ->
    exists w',
      download env apiKey (pre ++ rest) w = download env apiKey rest w' /\
      trace w' =
        (trace w ++ map (fun v => EvFetch (assetURL (dec v) apiKey)) pre)%list /\
      video_src w' =
        last (map (fun v => createObjectURL env (body v)) pre) (video_src w) /\
      downloadButton_href w' =
        last (map (fun v => createObjectURL env (body v)) pre)
          (downloadButton_href w) /\
      videoContainer_display w' =
        match pre with
        | [] => videoContainer_display w
        | _ :: _ => "block"
        end /\
      statusEl w' = statusEl w /\ controls w' = controls w /\
      polls w' = polls w.
Proof.
  induction pre as [ | v pre IH]; intros rest w H.
  - exists w. cbn [app map last]. rewrite app_nil_r. repeat split.
  - cbn [app]. rewrite download_step by (apply H; now left).
    destruct (IH rest
                (record_console
                   (ConsoleLog "Video is ready for playback and download.")
                   (set_videoContainer_display "block"
                      (set_video (createObjectURL env (body v))
                         (record_event (EvFetch (assetURL (dec v) apiKey))
                            false w)))))
      as [w' [E [T [V [D [C [S [K P]]]]]]]].
    { intros u Hu. apply H. now right. }
    exists w'. split; [ exact E | ].
    cbn [map]. rewrite !last_cons.
    split; [ | split; [ exact V | split; [ exact D | split ] ] ].
    + rewrite T. cbn [trace record_console set_videoContainer_display
                      set_video record_event].
      rewrite <- app_assoc. reflexivity.
    + rewrite C. destruct pre; reflexivity.
    + repeat split; assumption.
Qed.

End Download.

(** When every download goes well, each video is fetched once, in order, at
    its decoded URI with [&key=] and the API key appended; the player and
    the download link end on the object URL of the last video, and the
    container is displayed when there was a video at all. *)
Theorem download_installs_last (env : Env) (apiKey : string)
    (dec : GeneratedVideo -> string) (body : GeneratedVideo -> Blob)
    (videos : list GeneratedVideo) (w : World) :
  (forall v, In v videos -> downloads env apiKey v (dec v) (body v)) ->
  exists w',
    download env apiKey videos w = (Ok tt, w') /\
    trace w' =
      (trace w ++ map (fun v => EvFetch (dec v ++ "&key=" ++ apiKey)) videos)%list /\
    video_src w' =
      last (map (fun v => createObjectURL env (body v)) videos) (video_src w) /\
    downloadButton_href w' =
      last (map (fun v => createObjectURL env (body v)) videos)
        (downloadButton_href w) /\
    videoContainer_display w' =
      match videos with
      | [] => videoContainer_display w
      | _ :: _ => "block"
      end.
Proof.
  intros H.
  destruct (download_prefix env apiKey dec body videos [] w H)
    as [w' [E [T [V [D [C _]]]]]].
  exists w'. rewrite app_nil_r in E. repeat split; assumption.
Qed.

Lemma download_installs_last_witness :
  exists w',
    download (Case.serving Sample.pending Sample.neverDone "" NoAIStudio) "KEY"
      [Case.first_clip; Case.second_clip] Sample.page = (Ok tt, w') /\
    video_src w' = "blob:body of https://host/two.mp4?alt=media&key=KEY".
Proof.
  destruct (download_installs_last
              (Case.serving Sample.pending Sample.neverDone "" NoAIStudio) "KEY"
              uri (fun v => Case.served (uri v ++ "&key=KEY"))
              [Case.first_clip; Case.second_clip] Sample.page)
    as [w' [E [_ [V _]]]].
  - intros v [<- | [<- | []]]; (split; [ reflexivity | ]);
      eexists; (split; [ reflexivity | split; reflexivity ]).
  - exists w'. split; [ exact E | exact V ].
Defined.

(** When a fetch is answered with a response that is not ok, after
    downloads that went well, the loop ends there with the error 'Failed to
    fetch video file: ' followed by the status text: the videos after it are
    not fetched, and the player keeps the last video installed before it. *)
Theorem download_stops_at_failure (env : Env) (apiKey : string)
    (dec : GeneratedVideo -> string) (body : GeneratedVideo -> Blob)
    (pre post : list GeneratedVideo) (v : GeneratedVideo)
    (url : string) (res : Response) (w : World) :
  (forall u, In u pre -> downloads env apiKey u (dec u) (body u)) ->
  decodeURIComponent env (uri v) = Resolved url ->
  fetch env (url ++ "&key=" ++ apiKey) = Resolved res ->
  ok res = false ->
  exists w',
    download env apiKey (pre ++ v :: post) w =
      (Exc (newError ("Failed to fetch video file: " ++ statusText res)), w') /\
    trace w' =
      (trace w ++ map (fun u => EvFetch (dec u ++ "&key=" ++ apiKey)) pre
               ++ [EvFetch (url ++ "&key=" ++ apiKey)])%list /\
    video_src w' =
      last (map (fun u => createObjectURL env (body u)) pre) (video_src w) /\
    statusEl w' = statusEl w.
Proof.
  intros H Hd Hf Hok.
  destruct (download_prefix env apiKey dec body pre (v :: post) w H)
    as [w1 [E [T [V [_ [_ [S _]]]]]]].
  exists (record_event (EvFetch (assetURL url apiKey)) false w1).
  split; [ | split; [ | split ] ].
  - rewrite E. apply download_not_ok; assumption.
  - cbn [trace record_event]. rewrite T, <- app_assoc. reflexivity.
  - exact V.
  - exact S.
Qed.

Lemma download_stops_at_failure_witness :
  exists w',
    download
      (Case.serving Sample.pending Sample.neverDone
         "https://host/two.mp4?alt=media&key=KEY" NoAIStudio)
      "KEY" [Case.first_clip; Case.second_clip; Sample.clip] Sample.page
    = (Exc (newError "Failed to fetch video file: Not Found"), w') /\
    video_src w' = "blob:body of https://host/one.mp4?alt=media&key=KEY" /\
    List.length (trace w') = 2.
Proof.
  destruct (download_stops_at_failure
              (Case.serving Sample.pending Sample.neverDone
                 "https://host/two.mp4?alt=media&key=KEY" NoAIStudio)
              "KEY" uri (fun v => Case.served (uri v ++ "&key=KEY"))
              [Case.first_clip] [Sample.clip] Case.second_clip
              "https://host/two.mp4?alt=media"
              {| ok := false; statusText := "Not Found"; blob := Resolved "" |}
              Sample.page)
    as [w' [E [T [V _]]]].
  - intros u [<- | []]. split; [ reflexivity | ].
    eexists; (split; [ reflexivity | split; reflexivity ]).
  - reflexivity.
  - reflexivity.
  - reflexivity.
  - exists w'. split; [ exact E | split; [ exact V | rewrite T; reflexivity ] ].
Defined.

(** ** Whole calls of [generate] *)

Lemma trace_settled w : trace (settled w) = trace w.
Proof. reflexivity. Qed.

Lemma trace_set_statusEl st w : trace (set_statusEl st w) = trace w.
Proof. reflexivity. Qed.

Lemma trace_afterSubmit p w :
  trace (afterSubmit p w) = (trace w ++ [EvGenerateVideos p])%list.
Proof. reflexivity. Qed.

Lemma polls_afterSubmit p w : polls (afterSubmit p w) = polls w.
Proof. reflexivity. Qed.

Lemma trace_started w : trace (started w) = trace w.
Proof. reflexivity. Qed.

Lemma polls_started w : polls (started w) = polls w.
Proof. reflexivity. Qed.

(** One more answered pass, seen from the end. *)
Lemma afterPolls_snoc ops n :
  forall first w,
    afterPoll (polledAt ops first (polls w) n) (afterPolls ops first n w) =
    afterPolls ops first (S n) w.
Proof.
  induction n as [ | n IH]; intros first w; [ reflexivity | ].
  specialize (IH (ops (polls w)) (afterPoll first w)).
  rewrite polls_afterPoll, (polledAt_shift ops first) in IH.
  exact IH.
Qed.

(** The classification of the two errors the polling raises itself. *)
Lemma classified_timeout :
  classified (newError Msg.timeout) =
  {| userFriendlyMessage := Msg.timedOut; shouldOpenDialog := false |}.
Proof. vm_compute. reflexivity. Qed.

Lemma classified_pollFailed :
  classified (newError Msg.pollFailed) =
  {| userFriendlyMessage := Msg.fallbackPrefix ++ Msg.pollFailed;
     shouldOpenDialog := false |}.
Proof. vm_compute. reflexivity. Qed.

Lemma video_src_afterPolls ops n :
  forall first w, video_src (afterPolls ops first n w) = video_src w.
Proof.
  induction n as [ | n IH]; intros first w; cbn [afterPolls];
    [ | rewrite IH ]; reflexivity.
Qed.

(** A whole successful call.  With a configured key, a submission that is
    accepted, an operation that is first done after [n <= 20] status
    requests with at least one video, and downloads that all go well,
    [generate] returns; the calls it made are the submission, [n] passes of
    waiting and asking, and one fetch per video; the status reports
    success, the player holds the last video, and the controls are enabled. *)
Theorem generate_success (env : Env) (apiKey : string)
    (ops : nat -> Operation) (first : Operation) (n : nat)
    (v : GeneratedVideo) (vs : list GeneratedVideo)
    (dec : GeneratedVideo -> string) (body : GeneratedVideo -> Blob)
    (w : World) :
  API_KEY env = Some apiKey -> apiKey <> "" ->
  generateVideos env (params (prompt w) (base64data w) (configOf w))
    = Resolved first ->
  n <= 20 ->
  (forall j, j < n ->
     getVideosOperation env (polls w + j) = Resolved (ops (polls w + j))) ->
  (forall j, j < n -> done (polledAt ops first (polls w) j) = false) ->
  done (polledAt ops first (polls w) n) = true ->
  videosOf (polledAt ops first (polls w) n) = Some (v :: vs) ->
  (forall u, In u (v :: vs) -> downloads env apiKey u (dec u) (body u)) ->
  exists w',
    generate env w = (Ok tt, w') /\
    statusEl w' = InnerText "Video generated successfully." /\
    trace w' =
      (trace w
       ++ EvGenerateVideos (params (prompt w) (base64data w) (configOf w))
       :: pollTrace ops first (polls w) n
       ++ map (fun u => EvFetch (dec u ++ "&key=" ++ apiKey)) (v :: vs))%list /\
    video_src w' =
      last (map (fun u => createObjectURL env (body u)) (v :: vs)) (video_src w) /\
    videoContainer_display w' = "block" /\
    controls w' = allControls false.
Proof.
  intros Hk Hne Hs Hn Hr Hp Hd Hv Hdl.
  set (p := params (prompt w) (base64data w) (configOf w)) in *.
  assert (P : pollUntilDone env first (afterSubmit p (started w)) =
              (Ok (polledAt ops first (polls w) n),
               afterPolls ops first n (afterSubmit p (started w))))
    by (apply (pollUntilDone_done env ops n first (afterSubmit p (started w)));
        assumption).
  destruct (download_installs_last env apiKey dec body (v :: vs)
              (set_statusEl (InnerText "Downloading video...")
                 (afterPolls ops first n (afterSubmit p (started w)))) Hdl)
    as [w1 [E [T [V [_ C]]]]].
  exists (settled (set_statusEl (InnerText "Video generated successfully.") w1)).
  split; [ | split; [ reflexivity | split; [ | split; [ | split ] ] ] ].
  - rewrite (generate_configured env apiKey) by assumption.
    rewrite attempt_run.
    rewrite (generateContent_poll_done env _ _ apiKey _ _ first _ _ v vs Hs P Hv).
    rewrite E. reflexivity.
  - unfold settled. cbn [trace set_controls set_statusEl]. rewrite T.
    change (trace (set_statusEl (InnerText "Downloading video...")
                     (afterPolls ops first n (afterSubmit p (started w)))))
      with (trace (afterPolls ops first n (afterSubmit p (started w)))).
    rewrite trace_afterPolls.
    change (trace (afterSubmit p (started w)))
      with (trace w ++ [EvGenerateVideos p])%list.
    change (polls (afterSubmit p (started w))) with (polls w).
    rewrite <- !app_assoc. reflexivity.
  - unfold settled. cbn [video_src set_controls set_statusEl]. rewrite V.
    change (video_src (set_statusEl (InnerText "Downloading video...")
                         (afterPolls ops first n (afterSubmit p (started w)))))
      with (video_src (afterPolls ops first n (afterSubmit p (started w)))).
    rewrite video_src_afterPolls. reflexivity.
  - exact C.
  - reflexivity.
Qed.

Lemma generate_success_witness :
  exists w',
    generate (Case.serving Sample.pending Case.twoClips "" NoAIStudio) Sample.page
      = (Ok tt, w') /\
    video_src w' = "blob:body of https://host/two.mp4?alt=media&key=KEY" /\
    List.length (trace w') = 7.
Proof.
  destruct (generate_success
              (Case.serving Sample.pending Case.twoClips "" NoAIStudio) "KEY"
              (fun k => if (k <? 1)%nat then Sample.pending
                        else Sample.finished
                               (Some [Case.first_clip; Case.second_clip]))
              Sample.pending 2 Case.first_clip [Case.second_clip]
              uri (fun v => Case.served (uri v ++ "&key=KEY")) Sample.page)
    as [w' [E [_ [T [V _]]]]].
  - reflexivity.
  - discriminate.
  - reflexivity.
  - lia.
  - intros j Hj. destruct j as [ | [ | j]]; [ reflexivity | reflexivity | lia ].
  - intros j Hj. destruct j as [ | [ | j]]; [ reflexivity | reflexivity | lia ].
  - reflexivity.
  - reflexivity.
  - intros u [<- | [<- | []]]; (split; [ reflexivity | ]);
      eexists; (split; [ reflexivity | split; reflexivity ]).
  - exists w'. split; [ exact E | split; [ exact V | rewrite T; reflexivity ] ].
Defined.

(** A whole call that times out.  With a configured key and an accepted
    submission, when the first 20 status requests are answered and none of
    the operations held is done, [generate] returns after the submission and
    exactly 20 passes, fetches nothing, shows the time-out message and
    enables the controls; the key selection is not opened. *)
Theorem generate_timeout (env : Env) (apiKey : string)
    (ops : nat -> Operation) (first : Operation) (w : World) :
  API_KEY env = Some apiKey -> apiKey <> "" ->
  generateVideos env (params (prompt w) (base64data w) (configOf w))
    = Resolved first ->
  (forall j, j < 20 ->
     getVideosOperation env (polls w + j) = Resolved (ops (polls w + j))) ->
  (forall j, j <= 20 -> done (polledAt ops first (polls w) j) = false) ->
  exists w',
    generate env w = (Ok tt, w') /\
    statusEl w' = errorSpan Msg.timedOut /\
    trace w' =
      (trace w
       ++ EvGenerateVideos (params (prompt w) (base64data w) (configOf w))
       :: pollTrace ops first (polls w) 20)%list /\
    controls w' = allControls false.
Proof.
  intros Hk Hne Hs Hr Hp.
  set (p := params (prompt w) (base64data w) (configOf w)) in *.
  assert (P : pollUntilDone env first (afterSubmit p (started w)) =
              (Exc (newError Msg.timeout),
               afterPolls ops first 20 (afterSubmit p (started w))))
    by (apply (pollUntilDone_timeout env ops first (afterSubmit p (started w)));
        assumption).
  assert (D : shouldOpenDialog (classified (newError Msg.timeout)) = false)
    by (rewrite classified_timeout; reflexivity).
  pose proof (generate_after_error env apiKey w _ (newError Msg.timeout) Hk Hne
                (generateContent_poll_error env _ _ apiKey _ _ first _ _ Hs P)
                D eq_refl) as G.
  rewrite classified_timeout in G. cbn [userFriendlyMessage] in G.
  eexists. split; [ exact G | split; [ | split ] ].
  - reflexivity.
  - rewrite trace_settled, trace_set_statusEl, !trace_record_console,
      trace_afterPolls, trace_afterSubmit, polls_afterSubmit, trace_started,
      polls_started, <- app_assoc.
    reflexivity.
  - reflexivity.
Qed.

Lemma generate_timeout_witness :
  exists w',
    generate (Sample.scripted Sample.pending Sample.neverDone
                (AIStudioSelectKey (Resolved tt))) Sample.page = (Ok tt, w') /\
    statusEl w' = errorSpan Msg.timedOut /\
    List.length (trace w') = 41.
Proof.
  destruct (generate_timeout
              (Sample.scripted Sample.pending Sample.neverDone
                 (AIStudioSelectKey (Resolved tt)))
              "KEY" (fun _ => Sample.pending) Sample.pending Sample.page)
    as [w' [E [S [T _]]]].
  - reflexivity.
  - discriminate.
  - reflexivity.
  - intros j _. reflexivity.
  - intros j _. destruct j; reflexivity.
  - exists w'. split; [ exact E | split; [ exact S | rewrite T; reflexivity ] ].
Defined.

(** A failed status request never leads to the key selection.  With a
    configured key and an accepted submission, when a status request fails
    with any value [e] (an invalid-key error too), [generate] returns with
    the message 'An error occurred: Failed to get video generation status.
    Please try again.' on the page; the failed request is its last call, so
    the host's key selection is not opened, and the controls are enabled. *)
Theorem generate_poll_failure (env : Env) (apiKey : string)
    (ops : nat -> Operation) (first : Operation) (n : nat) (e : Thrown)
    (w : World) :
  API_KEY env = Some apiKey -> apiKey <> "" ->
  generateVideos env (params (prompt w) (base64data w) (configOf w))
    = Resolved first ->
  n < 20 ->
  (forall j, j < n ->
     getVideosOperation env (polls w + j) = Resolved (ops (polls w + j))) ->
  (forall j, j <= n -> done (polledAt ops first (polls w) j) = false) ->
  getVideosOperation env (polls w + n) = Rejected e ->
  exists w',
    generate env w = (Ok tt, w') /\
    statusEl w' =
      errorSpan ("An error occurred: Failed to get video generation status. Please try again.") /\
    trace w' =
      (trace w
       ++ EvGenerateVideos (params (prompt w) (base64data w) (configOf w))
       :: pollTrace ops first (polls w) (S n))%list /\
    controls w' = allControls false.
Proof.
  intros Hk Hne Hs Hn Hr Hp He.
  set (p := params (prompt w) (base64data w) (configOf w)) in *.
  assert (P : pollUntilDone env first (afterSubmit p (started w)) =
              (Exc (newError Msg.pollFailed),
               record_console
                 (ConsoleError "Error polling for operation status:" e)
                 (afterPolls ops first (S n) (afterSubmit p (started w))))).
  { rewrite (pollUntilDone_failure env ops n first (afterSubmit p (started w)) e)
      by assumption.
    rewrite afterPolls_snoc. reflexivity. }
  assert (D : shouldOpenDialog (classified (newError Msg.pollFailed)) = false)
    by (rewrite classified_pollFailed; reflexivity).
  pose proof (generate_after_error env apiKey w _ (newError Msg.pollFailed)
                Hk Hne
                (generateContent_poll_error env _ _ apiKey _ _ first _ _ Hs P)
                D eq_refl) as G.
  rewrite classified_pollFailed in G. cbn [userFriendlyMessage] in G.
  eexists. split; [ exact G | split; [ | split ] ].
  - reflexivity.
  - rewrite trace_settled, trace_set_statusEl, !trace_record_console,
      trace_afterPolls, trace_afterSubmit, polls_afterSubmit, trace_started,
      polls_started, <- app_assoc.
    reflexivity.
  - reflexivity.
Qed.

Lemma generate_poll_failure_witness :
  exists w',
    generate
      (Sample.scripted Sample.pending
         (fun _ => Rejected (ErrorInstance "API key not valid"))
         (AIStudioSelectKey (Resolved tt))) Sample.page = (Ok tt, w') /\
    List.length (trace w') = 3.
Proof.
  destruct (generate_poll_failure
              (Sample.scripted Sample.pending
                 (fun _ => Rejected (ErrorInstance "API key not valid"))
                 (AIStudioSelectKey (Resolved tt)))
              "KEY" (fun _ => Sample.pending) Sample.pending 0
              (ErrorInstance "API key not valid") Sample.page)
    as [w' [E [_ [T _]]]].
  - reflexivity.
  - discriminate.
  - reflexivity.
  - lia.
  - intros j Hj. lia.
  - intros j Hj. destruct j; reflexivity.
  - reflexivity.
  - exists w'. split; [ exact E | rewrite T; reflexivity ].
Defined.

(** ** The shape of the calls of [generateContent] *)

Section Protocol.

Variable env : Env.

Lemma pollLoop_passes fuel :
  forall operation pollCount w,
  exists l,
    trace (snd (pollLoop env fuel operation pollCount w)) = (trace w ++ l)%list /\
    pollPasses l = true /\
    countPolls l <= maxPolls - pollCount.
Proof.
  induction fuel as [ | fuel IH]; intros operation pollCount w.
  - exists []. rewrite app_nil_r. split; [ | split; [ reflexivity | simpl; lia ] ].
    simpl. destruct (negb (done operation) && (pollCount <? maxPolls)%nat);
      reflexivity.
  - destruct (done operation) eqn:D.
    { exists []. rewrite pollLoop_stop by now left.
      rewrite app_nil_r. split; [ reflexivity | split; [ reflexivity | simpl; lia ] ]. }
    destruct (Nat.ltb_spec pollCount maxPolls) as [C | C].
    2:{ exists []. rewrite pollLoop_stop by now right.
        rewrite app_nil_r. split; [ reflexivity | split; [ reflexivity | simpl; lia ] ]. }
    destruct (getVideosOperation env (polls w)) as [operation' | e] eqn:R.
    + rewrite (pollLoop_step env fuel operation pollCount w operation' D C R).
      destruct (IH operation' (S pollCount) (afterPoll operation w))
        as [l [T [P N]]].
      exists (EvDelay 10000 :: EvGetVideosOperation operation :: l).
      split; [ | split ].
      * rewrite T, trace_afterPoll, <- app_assoc. reflexivity.
      * cbn [pollPasses]. rewrite P. reflexivity.
      * cbn [countPolls]. lia.
    + rewrite (pollLoop_step_fail env fuel operation pollCount w e D C R).
      exists [EvDelay 10000; EvGetVideosOperation operation].
      split; [ | split ].
      * cbn [snd]. rewrite trace_record_console, trace_afterPoll. reflexivity.
      * reflexivity.
      * cbn [countPolls]. lia.
Qed.

Lemma pollUntilDone_world operation w :
  snd (pollUntilDone env operation w) =
  snd (pollLoop env maxPolls operation 0 w).
Proof.
  unfold pollUntilDone, bind.
  destruct (pollLoop env maxPolls operation 0 w) as [[[op pc] | e | ] w1];
    try reflexivity.
  cbn [fst]. destruct (done op); reflexivity.
Qed.

(** However the downloads go, the loop only fetches, and every URL it
    fetches ends with the key. *)
Lemma download_fetches apiKey videos :
  forall w,
  exists l,
    trace (snd (download env apiKey videos w)) = (trace w ++ l)%list /\
    Forall (fetchesWithKey apiKey) l.
Proof.
  induction videos as [ | v videos IH]; intros w.
  - exists []. rewrite app_nil_r. split; [ reflexivity | constructor ].
  - cbn [download]. rewrite bind_await.
    destruct (decodeURIComponent env (uri v)) as [url | e].
    2:{ exists []. rewrite app_nil_r. split; [ reflexivity | constructor ]. }
    assert (K : fetchesWithKey apiKey (EvFetch (url ++ "&key=" ++ apiKey)))
      by (exists url; reflexivity).
    destruct (fetch env (url ++ "&key=" ++ apiKey)) as [res | e] eqn:F.
    2:{ exists [EvFetch (url ++ "&key=" ++ apiKey)].
        rewrite (bind_Exc _ _ w e
                   (record_event (EvFetch (url ++ "&key=" ++ apiKey)) false w))
          by (unfold callFetch; rewrite bind_modify, F; reflexivity).
        split; [ reflexivity | repeat constructor; exact K ]. }
    rewrite (bind_Ok _ _ w res
               (record_event (EvFetch (url ++ "&key=" ++ apiKey)) false w))
      by (unfold callFetch; rewrite bind_modify, F; reflexivity).
    destruct (ok res); cbn [negb].
    2:{ exists [EvFetch (url ++ "&key=" ++ apiKey)].
        split; [ reflexivity | repeat constructor; exact K ]. }
    rewrite bind_await. destruct (blob res) as [b | e].
    2:{ exists [EvFetch (url ++ "&key=" ++ apiKey)].
        split; [ reflexivity | repeat constructor; exact K ]. }
    rewrite !bind_modify. unfold consoleLog. rewrite bind_modify.
    match goal with
    | |- context [download env apiKey videos ?x] =>
        destruct (IH x) as [l [T A]]
    end.
    exists (EvFetch (url ++ "&key=" ++ apiKey) :: l). split.
    + rewrite T. cbn [trace record_console set_videoContainer_display
                      set_video record_event].
      rewrite <- app_assoc. reflexivity.
    + constructor; assumption.
Qed.

End Protocol.

(** Whatever the environment answers, the calls of [generateContent] are, in
    this order: the submission of the request; then passes of the loop, each
    a wait of ten seconds followed by one status request, at most 20 of
    them; then fetches only, each of a URL that ends with [&key=] and the
    API key. *)
Theorem generateContent_protocol (env : Env)
    (prompt imageBytes apiKey : string) (cfg : VideoConfig) (w : World) :
  exists passes fetches,
    trace (snd (generateContent env prompt imageBytes apiKey cfg w)) =
      (trace w ++ EvGenerateVideos (params prompt imageBytes cfg)
               :: passes ++ fetches)%list /\
    pollPasses passes = true /\
    countPolls passes <= 20 /\
    Forall (fetchesWithKey apiKey) fetches.
Proof.
  set (p := params prompt imageBytes cfg).
  destruct (generateVideos env p) as [first | e] eqn:Hs.
  2:{ exists [], []. unfold generateContent. fold p.
      rewrite (bind_Exc _ _ w e (record_event (EvGenerateVideos p) false w))
        by (unfold callGenerateVideos; rewrite bind_modify, Hs; reflexivity).
      split; [ reflexivity | split; [ reflexivity | split; [ simpl; lia | constructor ] ] ]. }
  destruct (pollLoop_passes env maxPolls first 0 (afterSubmit p w))
    as [passes [T [P N]]].
  rewrite <- pollUntilDone_world in T.
  rewrite trace_afterSubmit, <- app_assoc in T. cbn [app] in T.
  change (maxPolls - 0) with 20 in N.
  destruct (pollUntilDone env first (afterSubmit p w)) as [[op | e | ] w1] eqn:U;
    cbn [snd] in T.
  - destruct (videosOf op) as [[ | v vs] | ] eqn:V.
    + exists passes, []. rewrite app_nil_r.
      assert (G : generateContent env prompt imageBytes apiKey cfg w =
                  (Exc (newError Msg.noVideos), w1)).
      { unfold generateContent. fold p.
        rewrite (bind_Ok _ _ w first (record_event (EvGenerateVideos p) false w))
          by (unfold callGenerateVideos; rewrite bind_modify, Hs; reflexivity).
        rewrite bind_modify. fold (afterSubmit p w).
        rewrite (bind_Ok _ _ _ _ _ U), V. reflexivity. }
      rewrite G. repeat split; try assumption; constructor.
    + rewrite (generateContent_poll_done env _ _ apiKey _ _ first _ _ v vs Hs U V).
      destruct (download_fetches env apiKey (v :: vs)
                  (set_statusEl (InnerText "Downloading video...") w1))
        as [fetches [F A]].
      exists passes, fetches. rewrite F, trace_set_statusEl, T, <- app_assoc.
      repeat split; assumption.
    + exists passes, []. rewrite app_nil_r.
      assert (G : generateContent env prompt imageBytes apiKey cfg w =
                  (Exc (newError Msg.noVideos), w1)).
      { unfold generateContent. fold p.
        rewrite (bind_Ok _ _ w first (record_event (EvGenerateVideos p) false w))
          by (unfold callGenerateVideos; rewrite bind_modify, Hs; reflexivity).
        rewrite bind_modify. fold (afterSubmit p w).
        rewrite (bind_Ok _ _ _ _ _ U), V. reflexivity. }
      rewrite G. repeat split; try assumption; constructor.
  - exists passes, []. rewrite app_nil_r.
    rewrite (generateContent_poll_error env _ _ apiKey _ _ first _ _ Hs U).
    repeat split; try assumption; constructor.
  - exfalso. apply (finishes_pollUntilDone env first (afterSubmit p w)).
    rewrite U. reflexivity.
Qed.

(** ** More on the classification *)

Lemma toLowerCase_append (a b : string) :
  Str.toLowerCase (a ++ b) = Str.toLowerCase a ++ Str.toLowerCase b.
Proof. induction a as [ | c a IH]; simpl; [ | rewrite IH ]; reflexivity. Qed.



(** Lower-casing a letter forgets whether it was written as a capital. *)
Lemma lowerChar_capital (c : ascii) :
  Str.lowerChar (capital c) = Str.lowerChar c.
Proof. destruct c as [[] [] [] [] [] [] [] []]; reflexivity. Qed.

Lemma toLowerCase_capitals (s : string) :
  Str.toLowerCase (capitals s) = Str.toLowerCase s.
Proof.
  induction s as [ | c s IH]; simpl; [ reflexivity | ].
  now rewrite lowerChar_capital, IH.
Qed.

(** The classification does not see the case of letters: two messages that
    differ only in the case of their letters (they are the same text once
    every letter is written as a capital) get the same dialog flag, and the
    same message as soon as one of the seven conditions holds (in the
    fallback the raw text itself is shown). *)
Theorem classification_ignores_case (m1 m2 : string) :
  capitals m1 = capitals m2 ->
  shouldOpenDialog (classifyMessage m1) = shouldOpenDialog (classifyMessage m2) /\
  (matchesNoRule m1 = false -> classifyMessage m1 = classifyMessage m2).
Proof.
  intros C.
  assert (H : Str.toLowerCase m1 = Str.toLowerCase m2)
    by (rewrite <- (toLowerCase_capitals m1), C; apply toLowerCase_capitals).
  unfold matchesNoRule, classifyMessage. rewrite H.
  split.
  - repeat match goal with
           | |- context [if ?b then _ else _] => destruct b; try reflexivity
           end.
  - repeat match goal with
           | |- context [if ?b then _ else _] => destruct b; try reflexivity
           end.
    cbn [orb negb]. discriminate.
Qed.

Lemma classification_ignores_case_witness :
  classifyMessage "RATE LIMIT reached" = classifyMessage "Rate Limit Reached".
Proof.
  apply (classification_ignores_case "RATE LIMIT reached" "Rate Limit Reached");
    vm_compute; reflexivity.
Defined.

(** The error of a fetch that is not ok, 'Failed to fetch video file: '
    followed by the status text, is shown as the network error, unless the
    status text itself carries one of the patterns of the four conditions
    that come first. *)
Theorem fetch_failure_is_network_error (status : string) :
  Rule.credential (Str.toLowerCase status) = false ->
  Rule.blocked (Str.toLowerCase status) = false ->
  Rule.quota (Str.toLowerCase status) = false ->
  Rule.timedOut (Str.toLowerCase status) = false ->
  classifyMessage ("Failed to fetch video file: " ++ status) =
  {| userFriendlyMessage := Msg.network; shouldOpenDialog := false |}.
Proof.
  intros H1 H2 H3 H4. unfold classifyMessage.
  rewrite toLowerCase_append.
  replace (Str.toLowerCase "Failed to fetch video file: ")
    with "failed to fetch video file: " by (vm_compute; reflexivity).
  revert H1 H2 H3 H4. generalize (Str.toLowerCase status). intros l.
  unfold Rule.credential, Rule.blocked, Rule.quota, Rule.timedOut, Rule.network.
  cbn. intros -> -> -> ->. reflexivity.
Qed.

Lemma fetch_failure_is_network_error_witness :
  classifyMessage "Failed to fetch video file: Not Found" =
  {| userFriendlyMessage := Msg.network; shouldOpenDialog := false |}.
Proof.
  apply (fetch_failure_is_network_error "Not Found"); vm_compute; reflexivity.
Defined.

(** The raw message of an [Error] that matches none of the seven conditions
    is written into [innerHTML] as it is, between the opening tag with
    'An error occurred: ' and the closing tag: nothing escapes it. *)
Theorem raw_message_reaches_innerHTML (env : Env) (m : string) (w : World) :
  matchesNoRule m = true ->
  statusEl (snd (catchBlock env (ErrorInstance m) w)) =
  InnerHTML ("<span class=" ++ dquote ++ "text-red-400" ++ dquote
             ++ ">An error occurred: " ++ m ++ "</span>").
Proof.
  intros H. rewrite catchBlock_run by reflexivity.
  assert (C : classified (ErrorInstance m) =
              {| userFriendlyMessage := Msg.fallbackPrefix ++ m;
                 shouldOpenDialog := false |}).
  { unfold matchesNoRule in H. cbn [classified]. unfold classifyMessage.
    repeat match goal with
           | |- context [if ?b then _ else _] =>
               destruct b; [ cbn [orb negb] in H; discriminate H | ]
           end.
    reflexivity. }
  rewrite C. reflexivity.
Qed.

Lemma raw_message_reaches_innerHTML_witness :
  statusEl (snd (catchBlock
                   (Sample.scripted Sample.pending Sample.neverDone NoAIStudio)
                   (ErrorInstance "<img src=x onerror=alert(1)>") Sample.page)) =
  InnerHTML ("<span class=" ++ dquote ++ "text-red-400" ++ dquote
             ++ ">An error occurred: <img src=x onerror=alert(1)></span>").
Proof.
  apply (raw_message_reaches_innerHTML
           (Sample.scripted Sample.pending Sample.neverDone NoAIStudio)
           "<img src=x onerror=alert(1)>" Sample.page).
  vm_compute. reflexivity.
Defined.

(** ** The key, the prompt, and the key selection *)

(** Without a usable API key ([process.env.API_KEY] absent or empty)
    [generate] submits nothing and leaves the controls as they are: it
    shows 'API key is not configured...' and runs [openApiKeyDialog], which
    opens the key selection of the host or, without one, replaces the
    message by 'API key selection is not available...'. *)
Theorem generate_without_key (env : Env) (w : World) :
  API_KEY env = None \/ API_KEY env = Some "" ->
  controls (snd (generate env w)) = controls w /\
  trace (snd (generate env w)) =
    (trace w ++ if hasSelectKey (aistudio env) then [EvOpenSelectKey] else [])%list /\
  statusEl (snd (generate env w)) =
    errorSpan
      (if hasSelectKey (aistudio env)
       then "API key is not configured. Please add your API key."
       else "API key selection is not available. Please configure the API_KEY environment variable.").
Proof.
  intros H.
  assert (G : generate env w =
              openApiKeyDialog env
                (set_statusEl
                   (errorSpan "API key is not configured. Please add your API key.")
                   w))
    by (unfold generate; destruct H as [-> | ->]; reflexivity).
  rewrite G. unfold openApiKeyDialog.
  destruct (aistudio env) as [ | | [[] | e]]; cbn [hasSelectKey].
  - rewrite app_nil_r. repeat split.
  - rewrite app_nil_r. repeat split.
  - repeat split.
  - repeat split.
Qed.

Lemma generate_without_key_witness :
  trace (snd (generate (Case.keyless (Some "") (AIStudioSelectKey (Resolved tt)))
                Sample.page)) = [EvOpenSelectKey] /\
  trace (snd (generate (Case.keyless None NoAIStudio) Sample.page)) = [].
Proof.
  split.
  - apply (generate_without_key
             (Case.keyless (Some "") (AIStudioSelectKey (Resolved tt)))
             Sample.page).
    right. reflexivity.
  - apply (generate_without_key (Case.keyless None NoAIStudio) Sample.page).
    left. reflexivity.
Defined.

Section Trim.





End Trim.


(** A credential error on a host without key selection: the invalid-key
    message is replaced at once by 'API key selection is not available...',
    which is what the page shows in the end; nothing is called. *)
Theorem credential_error_without_host (env : Env) (m : string) (w : World) :
  Rule.credential (Str.toLowerCase m) = true ->
  hasSelectKey (aistudio env) = false ->
  fst (catchBlock env (ErrorInstance m) w) = Ok tt /\
  statusEl (snd (catchBlock env (ErrorInstance m) w)) =
    errorSpan "API key selection is not available. Please configure the API_KEY environment variable." /\
  trace (snd (catchBlock env (ErrorInstance m) w)) = trace w.
Proof.
  intros H Hs. rewrite catchBlock_run by reflexivity. cbn [classified].
  rewrite (classifyMessage_credential m H). cbn [shouldOpenDialog].
  unfold openApiKeyDialog.
  destruct (aistudio env); [ | | discriminate Hs ]; repeat split.
Qed.

Lemma credential_error_without_host_witness :
  statusEl (snd (catchBlock
                   (Sample.scripted Sample.pending Sample.neverDone NoAIStudio)
                   (ErrorInstance "PERMISSION DENIED") Sample.page)) =
  errorSpan "API key selection is not available. Please configure the API_KEY environment variable.".
Proof.
  apply (credential_error_without_host
           (Sample.scripted Sample.pending Sample.neverDone NoAIStudio)
           "PERMISSION DENIED" Sample.page); vm_compute; reflexivity.
Defined.

(** A submission refused with a credential error, on a host with key
    selection: the request is submitted once and not retried, the error is
    classified as it came (it is not wrapped), the invalid-key message is
    shown and the key selection is opened; when the selection itself fails,
    that failure is what [generate] throws.  The controls are enabled in
    both cases. *)
Theorem generate_refused_key (env : Env) (apiKey m : string)
    (result : Outcome unit) (w : World) :
  API_KEY env = Some apiKey -> apiKey <> "" ->
  generateVideos env (params (prompt w) (base64data w) (configOf w))
    = Rejected (ErrorInstance m) ->
  Rule.credential (Str.toLowerCase m) = true ->
  aistudio env = AIStudioSelectKey result ->
  fst (generate env w) =
    match result with
    | Resolved _ => Ok tt
    | Rejected e => Exc e
    end /\
  trace (snd (generate env w)) =
    (trace w
     ++ [EvGenerateVideos (params (prompt w) (base64data w) (configOf w));
         EvOpenSelectKey])%list /\
  statusEl (snd (generate env w)) = errorSpan Msg.invalidKey /\
  controls (snd (generate env w)) = allControls false.
Proof.
  intros Hk Hne Hs Hc Ha.
  set (p := params (prompt w) (base64data w) (configOf w)) in *.
  rewrite (generate_configured env apiKey) by assumption.
  rewrite attempt_run.
  assert (G : generateContent env (prompt w) (base64data w) apiKey (configOf w)
                (started w) =
              (Exc (ErrorInstance m),
               record_event (EvGenerateVideos p) false (started w))).
  { unfold generateContent. fold p. apply bind_Exc.
    unfold callGenerateVideos. rewrite bind_modify, Hs. reflexivity. }
  rewrite G, catchBlock_run by reflexivity. cbn [classified].
  rewrite (classifyMessage_credential m Hc). cbn [shouldOpenDialog userFriendlyMessage].
  unfold openApiKeyDialog. rewrite Ha, bind_modify.
  destruct result as [[] | e]; cbn [await ret throw fst snd];
    (split; [ reflexivity | split; [ | split; reflexivity ] ]);
    rewrite trace_settled; cbn [trace record_event set_statusEl record_console];
    rewrite trace_started, <- app_assoc; reflexivity.
Qed.

Lemma generate_refused_key_witness :
  fst (generate (Sample.refused (AIStudioSelectKey (Rejected (StringValue "closed"))))
         Sample.page) = Exc (StringValue "closed") /\
  controls (snd (generate
                   (Sample.refused (AIStudioSelectKey (Rejected (StringValue "closed"))))
                   Sample.page)) = allControls false.
Proof.
  destruct (generate_refused_key
              (Sample.refused (AIStudioSelectKey (Rejected (StringValue "closed"))))
              "KEY" "API key not valid. Please pass a valid API key."
              (Rejected (StringValue "closed")) Sample.page)
    as [F [_ [_ C]]].
  - reflexivity.
  - discriminate.
  - reflexivity.
  - vm_compute. reflexivity.
  - reflexivity.
  - split; [ exact F | exact C ].
Defined.

(** ** The upload *)




(** A prompt made of a no-break space is white space for [trim]: the click
    submits nothing. *)
Example nbsp_prompt_is_not_submitted :
  let r := generateButtonClick
             (Sample.scripted Sample.pending Sample.neverDone NoAIStudio)
             (set_prompt (String (ascii_of_nat 160) " ") Sample.page) in
  trace (snd r) = [] /\
  statusEl (snd r) = errorSpan "Please enter a prompt to generate a video.".
Proof. vm_compute. repeat split. Qed.

(** Lower-casing reaches the Latin-1 capitals: E-acute (201) becomes e-acute
    (233), the multiplication sign (215) stays. *)
Example latin1_lower_case :
  Str.toLowerCase (String (ascii_of_nat 201) (String (ascii_of_nat 215) "Z")) =
  String (ascii_of_nat 233) (String (ascii_of_nat 215) "z").
Proof. reflexivity. Qed.

(** An [Error] whose message is not a string, thrown by the submission:
    the [catch] block throws in turn, no message replaces the status, and
    the controls are enabled all the same. *)
Example untyped_error_escapes :
  let env :=
    {| API_KEY := Some "KEY";
       generateVideos := fun _ => Rejected (ErrorInstanceNonString NsOther);
       getVideosOperation := Sample.neverDone;
       decodeURIComponent := fun s => Resolved s;
       fetch := fun _ => Rejected (ErrorInstance "Failed to fetch");
       createObjectURL := fun b => b;
       aistudio := NoAIStudio |} in
  fst (generate env Sample.page) =
    Exc (ErrorInstance "e.message.toLowerCase is not a function") /\
  statusEl (snd (generate env Sample.page)) =
    InnerText "Initializing video generation..." /\
  controls (snd (generate env Sample.page)) = allControls false.
Proof. vm_compute. repeat split. Qed.
